(** * Tawhiri: wind dataset store and flight model combinators

    A shallow embedding of [tawhiri/dataset.py] and [tawhiri/models.py].

    Conventions of the embedding.
    - Python integers are [Z].  A finite Python float is the rational
      [Q] it denotes.  In [dataset.py] every float operation is the exact
      operation followed by [py.fl], the rounding of IEEE 754 binary64
      (to nearest, ties to even, with subnormals); a result too large
      for a float ends in [OverflowError].  [int(x)] truncates toward
      zero.  In [models.py] and in the script the sums and comparisons
      of floats are those of the rationals.
    - Class attributes of [Dataset] live in one record, [DatasetClass],
      that is part of the process state; instances only hold what
      [__init__] assigns on [self].
    - Code that raises returns [inl exn]; the process state reached
      before the exception is kept, as in Python.
    - The file system, [datetime.strptime] and the [suntime] library are
      the environment: the first is a component of the state, the other
      two are parameters.  System calls on a file that exists ([open],
      [seek], [tell]) are taken to succeed; [mmap] fails on an empty
      file. *)

From Stdlib Require Import ZArith QArith Qabs Qround Qpower Qreduction.
From Stdlib Require Import List String Ascii Bool Lia Lqa.
Import ListNotations.

(** ** Python built-ins used by the sources *)

Module py.

Local Open Scope Z_scope.

(** Number of elements of [range(lo, hi, step)] for a positive step. *)
Definition range_len (lo hi step : Z) : Z :=
  if (0 <? step) && (lo <? hi) then 1 + (hi - 1 - lo) / step else 0.

(** [range(lo, hi, step)], as the list it iterates over; every call in the
    sources has a positive literal step. *)
Definition range (lo hi step : Z) : list Z :=
  map (fun i => lo + step * Z.of_nat i) (seq 0 (Z.to_nat (range_len lo hi step))).

Definition len {A : Type} (l : list A) : Z := Z.of_nat (List.length l).

(** [int(x)] on a float: truncation toward zero. *)
Definition int (x : Q) : Z := Z.quot (Qnum x) (Zpos (Qden x)).

(** *** Binary64 arithmetic

    [ilog2 x] is the exponent of a non-zero [x]: [2^e <= |x| < 2^(e+1)]. *)
Definition ilog2 (x : Q) : Z :=
  let e0 := Z.log2 (Z.abs (Qnum x)) - Z.log2 (Zpos (Qden x)) in
  if Qle_bool (2 ^ e0) (Qabs x) then e0 else e0 - 1.

(** The integer nearest to [y], the even one of the two on a tie. *)
Definition round_half_even (y : Q) : Z :=
  let f := Qfloor y in
  match Qcompare (y - inject_Z f) (1 # 2) with
  | Lt => f
  | Gt => f + 1
  | Eq => if Z.even f then f else f + 1
  end.

(** The spacing of the floats around [x]: 53 significant bits, and
    [2^-1074] on the subnormal range. *)
Definition quantum (x : Q) : Q := (2 ^ Z.max (ilog2 x - 52) (-1074))%Q.

(** The float nearest to [x], before any test for overflow. *)
Definition fl (x : Q) : Q :=
  let x := Qred x in
  if Qeq_bool x 0 then 0%Q
  else let q := quantum x in Qred (inject_Z (round_half_even (x / q)) * q).

(** A rounded result at or beyond [2^1024] is not a finite float. *)
Definition overflows (x : Q) : bool := Qle_bool (2 ^ 1024) (Qabs x).

(** Half a unit in the last place, relative to the value. *)
Definition half_ulp : Q := 1 # 9007199254740992.

(** [sorted(l, reverse=True)] for a strict order [lt]: a stable sort into
    descending order. *)
Fixpoint insert_desc {A : Type} (lt : A -> A -> bool) (x : A) (l : list A) : list A :=
  match l with
  | [] => [x]
  | y :: l' => if lt x y then y :: insert_desc lt x l' else x :: l
  end.

Definition sorted_rev {A : Type} (lt : A -> A -> bool) (l : list A) : list A :=
  fold_right (insert_desc lt) [] l.

(** Comparisons on floats. *)
Definition Qltb (x y : Q) : bool := negb (Qle_bool y x).

(** Lexicographic order on [str]. *)
Definition str_ltb (a b : string) : bool :=
  match String.compare a b with Lt => true | _ => false end.

(** [os.path.join(a, b)] on POSIX. *)
Definition starts_with_sep (s : string) : bool :=
  match s with
  | String c _ => Ascii.eqb c "/"%char
  | EmptyString => false
  end.

Fixpoint ends_with_sep (s : string) : bool :=
  match s with
  | EmptyString => false
  | String c EmptyString => Ascii.eqb c "/"%char
  | String _ s' => ends_with_sep s'
  end.

Definition path_join (a b : string) : string :=
  if starts_with_sep b then b
  else if (String.eqb a "" || ends_with_sep a)%bool then (a ++ b)%string
  else (a ++ "/" ++ b)%string.

(** [s[:n]] and [s[n:]]. *)
Definition take (n : nat) (s : string) : string := String.substring 0 n s.
Definition drop (n : nat) (s : string) : string := String.substring n (String.length s - n) s.

(** Zero-padded decimal rendering, as [%Y], [%m], [%d], [%H] produce. *)
Definition digit (d : Z) : ascii := ascii_of_nat (48 + Z.to_nat d).

Fixpoint zfill (width : nat) (v : Z) (acc : string) : string :=
  match width with
  | O => acc
  | S w => zfill w (v / 10) (String (digit (v mod 10)) acc)
  end.

End py.

(** ** [tawhiri/dataset.py] *)

Module dataset.

Local Open Scope Z_scope.

(** [datetime.datetime] values as [strptime(_, "%Y%m%d%H")] builds them:
    naive, with minute, second and microsecond zero. *)
Record datetime : Type := mk_datetime {
  year : Z; month : Z; day : Z; hour : Z
}.

Definition datetime_eqb (a b : datetime) : bool :=
  (year a =? year b) && (month a =? month b) && (day a =? day b) && (hour a =? hour b).

Definition datetime_ltb (a b : datetime) : bool :=
  (year a <? year b) || ((year a =? year b) &&
  ((month a <? month b) || ((month a =? month b) &&
  ((day a <? day b) || ((day a =? day b) && (hour a <? hour b)))))).

(** [ds_time.strftime("%Y%m%d%H")] *)
Definition strftime_YmdH (t : datetime) : string :=
  (py.zfill 4 (year t) "" ++ py.zfill 2 (month t) "" ++
   py.zfill 2 (day t) "" ++ py.zfill 2 (hour t) "")%string.

(** The named tuple [axes]. *)
Record Axes : Type := mk_axes {
  ax_hour : list Z;
  ax_pressure : list Z;
  ax_variable : list string;
  ax_latitude : list Q;
  ax_longitude : list Q
}.

Definition Shape : Type := (Z * Z * Z * Z * Z)%type.

Definition shape_list (s : Shape) : list Z :=
  let '(a, b, c, d, e) := s in [a; b; c; d; e].

Definition shape0 (s : Shape) : Z := let '(a, _, _, _, _) := s in a.
Definition shape1 (s : Shape) : Z := let '(_, b, _, _, _) := s in b.
Definition shape2 (s : Shape) : Z := let '(_, _, c, _, _) := s in c.
Definition shape3 (s : Shape) : Z := let '(_, _, _, d, _) := s in d.
Definition shape4 (s : Shape) : Z := let '(_, _, _, _, e) := s in e.

Definition shape_eqb (s1 s2 : Shape) : bool :=
  let '(a, b, c, d, e) := s1 in
  let '(a', b', c', d', e') := s2 in
  (a =? a') && (b =? b') && (c =? c') && (d =? d') && (e =? e').

(** [tuple(len(x) for x in axes)] *)
Definition axes_lens (a : Axes) : Shape :=
  (py.len (ax_hour a), py.len (ax_pressure a), py.len (ax_variable a),
   py.len (ax_latitude a), py.len (ax_longitude a)).

Definition pressures_pgrb2f : list Z :=
  [10; 20; 30; 50; 70; 100; 150; 200; 250; 300; 350; 400;
   450; 500; 550; 600; 650; 700; 750; 800; 850; 900; 925;
   950; 975; 1000].

Definition pressures_pgrb2bf : list Z :=
  [1; 2; 3; 5; 7; 125; 175; 225; 275; 325; 375; 425;
   475; 525; 575; 625; 675; 725; 775; 825; 875].

Definition element_size : Z := 4.

Definition SUFFIX_GRIBMIRROR : string := ".gribmirror".
Definition DEFAULT_DIRECTORY : string := "/srv/tawhiri-datasets".

(** The memory map held by an instance: [mmap.mmap(f.fileno(), 0, prot, flags)]
    covers the whole file. *)
Record Mmap : Type := mk_mmap {
  map_length : Z;
  map_writable : bool
}.

(** What [__init__] stores on [self]; [oid] is the identity of the object. *)
Record Dataset : Type := mk_dataset {
  oid : nat;
  directory : string;
  ds_time : datetime;
  new : bool;
  fn : string;
  array : Mmap
}.

(** Attribute reads [d.directory] and [d.ds_time], for use where a
    parameter of the same name is in scope. *)
Definition attr_directory (d : Dataset) : string := directory d.
Definition attr_ds_time (d : Dataset) : datetime := ds_time d.

(** The class attributes that the methods read or assign. *)
Record DatasetClass : Type := mk_class {
  forecast_range : list Z;
  shape : Shape;
  axes : Axes;
  size : Z;
  cached_latest : option Dataset
}.

(** The steps shared by the class body and [setup] once the hour range is
    known: shape, axes, the assertion, and the size loop. *)
Definition make_axes (fr : list Z) : Axes :=
  mk_axes fr
    (py.sorted_rev Z.ltb (pressures_pgrb2f ++ pressures_pgrb2bf))
    ["height"%string; "wind_u"%string; "wind_v"%string]
    (map (fun x => inject_Z x / 2)%Q (py.range (-180) (180 + 1) 1))
    (map (fun x => inject_Z x / 2)%Q (py.range 0 720 1)).

Definition make_shape (fr : list Z) : Shape := (py.len fr, 47, 3, 361, 720).

(** [size = element_size; for _x in shape: size *= _x] *)
Definition size_of (s : Shape) : Z :=
  fold_left (fun acc x => acc * x) (shape_list s) element_size.

(** The class as the class body leaves it. *)
Definition class_body : DatasetClass :=
  let fr := py.range 0 (192 + 3) 3 in
  mk_class fr (make_shape fr) (make_axes fr) (size_of (make_shape fr)) None.

(** *** Process state and effects *)

(** The part of the file system the module looks at: [os.listdir] of a
    directory ([None] when it does not exist) and the length of a file
    ([None] when it does not exist). *)
Record FS : Type := mk_fs {
  fs_listdir : string -> option (list string);
  fs_size : string -> option Z
}.

Inductive IOEvent : Type :=
| EvOpen (path : string) (writing : bool)
| EvMmap (path : string) (writable : bool)
| EvClose (path : string)
| EvAlarm (seconds : Z).

Record World : Type := mk_world {
  w_cls : DatasetClass;      (* attributes of the class object [Dataset] *)
  w_fs : FS;
  w_alarm : option Z;        (* pending [signal.alarm], in seconds *)
  w_next : nat;              (* identity of the next object allocated *)
  w_trace : list IOEvent     (* system calls made, most recent first *)
}.

Inductive Exn : Type :=
| ValueError_size (expected actual : Z)  (* "Dataset should be {0} bytes (was {1})" *)
| ValueError_mmap_empty                  (* "cannot mmap an empty file" *)
| AssertionError
| ZeroDivisionError
| OverflowError
| IndexError
| FileNotFoundError (path : string)
| OSError_seek (pos : Z).

Definition M (A : Type) : Type := World -> (Exn + A) * World.

Definition ret {A : Type} (a : A) : M A := fun w => (inr a, w).
Definition raise {A : Type} (e : Exn) : M A := fun w => (inl e, w).
Definition bind {A B : Type} (m : M A) (k : A -> M B) : M B :=
  fun w => match m w with
           | (inl e, w') => (inl e, w')
           | (inr a, w') => k a w'
           end.

(** [try: m finally: c] *)
Definition finally {A : Type} (m : M A) (c : World -> World) : M A :=
  fun w => let '(r, w') := m w in (r, c w').

Declare Scope py_scope.
Delimit Scope py_scope with py.
Notation "x <- m ;; k" := (bind m (fun x => k))
  (at level 61, m at next level, right associativity) : py_scope.
Notation "m ;; k" := (bind m (fun _ => k))
  (at level 61, right associativity) : py_scope.
Local Open Scope py_scope.

Definition get_cls : M DatasetClass := fun w => (inr (w_cls w), w).
Definition put_cls (c : DatasetClass) : M unit :=
  fun w => (inr tt, mk_world c (w_fs w) (w_alarm w) (w_next w) (w_trace w)).
Definition get_fs : M FS := fun w => (inr (w_fs w), w).
Definition put_fs (f : FS) : M unit :=
  fun w => (inr tt, mk_world (w_cls w) f (w_alarm w) (w_next w) (w_trace w)).
Definition emit (e : IOEvent) (w : World) : World :=
  mk_world (w_cls w) (w_fs w) (w_alarm w) (w_next w) (e :: w_trace w).
Definition do_emit (e : IOEvent) : M unit := fun w => (inr tt, emit e w).

(** Allocation of a new object. *)
Definition alloc : M nat :=
  fun w => (inr (w_next w), mk_world (w_cls w) (w_fs w) (w_alarm w) (S (w_next w)) (w_trace w)).

(** [signal.alarm(seconds)] *)
Definition signal_alarm (seconds : Z) : M unit :=
  fun w => (inr tt, mk_world (w_cls w) (w_fs w) (Some seconds) (w_next w)
                             (EvAlarm seconds :: w_trace w)).

(** [a / b] on two ints: the quotient, rounded once. *)
Definition int_truediv (a b : Z) : M Q :=
  if b =? 0 then raise ZeroDivisionError
  else
    let x := py.fl (inject_Z a / inject_Z b) in
    if py.overflows x then raise OverflowError else ret x.

(** The conversion of an int operand to a float. *)
Definition to_float (b : Z) : M Q :=
  let y := py.fl (inject_Z b) in
  if py.overflows y then raise OverflowError else ret y.

(** [a / b] on a float and an int. *)
Definition truediv (a : Q) (b : Z) : M Q :=
  if b =? 0 then raise ZeroDivisionError
  else y <- to_float b ;; ret (py.fl (a / y)).

(** [(time - 1) * 3] on a float.  When the product overflows it is
    [inf], on which [int()], the first thing [setup] does, raises. *)
Definition horizon_of (time : Q) : M Q :=
  let hours := py.fl (py.fl (time - 1) * 3) in
  if py.overflows hours then raise OverflowError else ret hours.

(** *** Class methods *)

(** [Dataset.forecast_hours()] *)
Definition forecast_hours : M Z :=
  c <- get_cls ;; ret ((shape0 (shape c) - 1) * 3).

(** [Dataset.setup(forecastHours)] *)
Definition setup (forecastHours : Q) : M unit :=
  let forecast_range := py.range 0 (py.int forecastHours + 3) 3 in
  let shape := make_shape forecast_range in
  let axes := make_axes forecast_range in
  if negb (shape_eqb shape (axes_lens axes)) then raise AssertionError
  else
    let size := size_of shape in
    c <- get_cls ;;
    put_cls (mk_class forecast_range shape axes size (cached_latest c)).

(** [Dataset.filename(ds_time, directory, suffix)] *)
Definition filename (ds_time : datetime) (directory suffix : string) : string :=
  py.path_join directory (strftime_YmdH ds_time ++ suffix)%string.

(** [Dataset.prune_latest(signum, stack_frame)], the SIGALRM handler. *)
Definition prune_latest : M unit :=
  c <- get_cls ;;
  put_cls (mk_class (forecast_range c) (shape c) (axes c) (size c) None).

(** Delivery of SIGALRM when the pending alarm runs out. *)
Definition deliver_SIGALRM (w : World) : World :=
  snd (prune_latest (mk_world (w_cls w) (w_fs w) None (w_next w) (w_trace w))).

(** *** [Dataset.__init__] *)

(** [open(fn, "rb")] followed by [f.seek(0, 2); sz = f.tell()]. *)
Definition open_rb (fn : string) : M Z :=
  f <- get_fs ;;
  match fs_size f fn with
  | None => raise (FileNotFoundError fn)
  | Some sz => do_emit (EvOpen fn false) ;; ret sz
  end.

Definition add_name (name : string) (l : list string) : list string :=
  if existsb (String.eqb name) l then l else l ++ [name].

Definition fs_set (f : FS) (dir name path : string) (sz : Z) : FS :=
  mk_fs (fun d => if String.eqb d dir
                  then option_map (add_name name) (fs_listdir f d)
                  else fs_listdir f d)
        (fun p => if String.eqb p path then Some sz else fs_size f p).

(** [open(fn, "w+b")]: creates the file, or truncates it. *)
Definition open_wb (dir name fn : string) : M unit :=
  f <- get_fs ;;
  match fs_listdir f dir with
  | None => raise (FileNotFoundError fn)
  | Some _ => put_fs (fs_set f dir name fn 0) ;; do_emit (EvOpen fn true)
  end.

(** [f.seek(pos); f.write(b"\0")] on a file just truncated. *)
Definition seek_write (dir name fn : string) (pos : Z) : M unit :=
  if pos <? 0 then raise (OSError_seek pos)
  else f <- get_fs ;; put_fs (fs_set f dir name fn (pos + 1)).

(** [mmap.mmap(f.fileno(), 0, prot, flags)] on an open file of [len]
    bytes: the whole file is mapped, and an empty file cannot be.  A file
    just written up to position [size - 1] has [size] bytes. *)
Definition mmap_whole (fn : string) (len : Z) (writable : bool) : M Mmap :=
  if len =? 0 then raise ValueError_mmap_empty
  else do_emit (EvMmap fn writable) ;; ret (mk_mmap len writable).

(** The body of [if determineTime:], on a file of [sz] bytes. *)
Definition determine_time (sz : Z) : M unit :=
  c <- get_cls ;;
  t1 <- int_truediv sz element_size ;;
  t2 <- truediv t1 (shape1 (shape c)) ;;
  t3 <- truediv t2 (shape2 (shape c)) ;;
  t4 <- truediv t3 (shape3 (shape c)) ;;
  time <- truediv t4 (shape4 (shape c)) ;;
  hours <- horizon_of time ;;
  setup hours.

Definition __init__ (ds_time : datetime) (directory : string)
    (new determineTime : bool) : M Dataset :=
  self <- alloc ;;
  let name := strftime_YmdH ds_time in
  let fn := filename ds_time directory "" in
  if new then
    open_wb directory name fn ;;
    finally
      (c <- get_cls ;;
       seek_write directory name fn (size c - 1) ;;
       array <- mmap_whole fn (size c) true ;;
       ret (mk_dataset self directory ds_time new fn array))
      (emit (EvClose fn))
  else
    sz <- open_rb fn ;;
    finally
      ((if determineTime then determine_time sz else ret tt) ;;
       c <- get_cls ;;
       if negb (sz =? size c) then raise (ValueError_size (size c) sz)
       else
         array <- mmap_whole fn sz false ;;
         ret (mk_dataset self directory ds_time new fn array))
      (emit (EvClose fn)).

(** *** Directory scan and the cached latest dataset *)

(** The named tuple [dataset_in_row]. *)
Record Row : Type := mk_row {
  row_ds_time : datetime;
  row_suffix : string;
  row_filename : string;
  row_path : string
}.

(** Tuple comparison, as [sorted] applies it to rows. *)
Definition row_ltb (a b : Row) : bool :=
  datetime_ltb (row_ds_time a) (row_ds_time b) ||
  (datetime_eqb (row_ds_time a) (row_ds_time b) &&
   (py.str_ltb (row_suffix a) (row_suffix b) ||
    (String.eqb (row_suffix a) (row_suffix b) &&
     (py.str_ltb (row_filename a) (row_filename b) ||
      (String.eqb (row_filename a) (row_filename b) &&
       py.str_ltb (row_path a) (row_path b)))))).

(** Truth value of the [only_suffices] argument: [None] and an empty
    collection are false. *)
Definition suffices_truthy (only_suffices : option (list string)) : bool :=
  match only_suffices with
  | None => false
  | Some [] => false
  | Some (_ :: _) => true
  end.

Definition suffix_in (suffix : string) (only_suffices : option (list string)) : bool :=
  match only_suffices with
  | None => false
  | Some l => existsb (String.eqb suffix) l
  end.

Section Scan.

(** [datetime.strptime(_, "%Y%m%d%H")]; [None] stands for [ValueError]. *)
Variable strptime : string -> option datetime.

(** One iteration of the loop of [listdir]: the row yielded for
    [filename], if any. *)
Definition listdir_step (directory : string) (only_suffices : option (list string))
    (filename : string) : option Row :=
  if (String.length filename <? 10)%nat then None
  else
    let ds_time_str := py.take 10 filename in
    match strptime ds_time_str with
    | None => None
    | Some ds_time =>
        let suffix := py.drop 10 filename in
        if suffices_truthy only_suffices && negb (suffix_in suffix only_suffices)
        then None
        else Some (mk_row ds_time suffix filename (py.path_join directory filename))
    end.

Fixpoint listdir_rows (directory : string) (only_suffices : option (list string))
    (names : list string) : list Row :=
  match names with
  | [] => []
  | filename :: rest =>
      match listdir_step directory only_suffices filename with
      | Some r => r :: listdir_rows directory only_suffices rest
      | None => listdir_rows directory only_suffices rest
      end
  end.

(** [Dataset.listdir(directory, only_suffices)], with the generator run to
    its end. *)
Definition listdir (directory : string) (only_suffices : option (list string))
    : M (list Row) :=
  f <- get_fs ;;
  match fs_listdir f directory with
  | None => raise (FileNotFoundError directory)
  | Some names => ret (listdir_rows directory only_suffices names)
  end.

(** [Dataset.open_latest(directory, persistent, determineTime)] *)
Definition open_latest (directory : string) (persistent determineTime : bool)
    : M Dataset :=
  datasets <- listdir directory (Some [""%string]) ;;
  match py.sorted_rev row_ltb datasets with
  | [] => raise IndexError
  | first :: _ =>
      let latest := row_ds_time first in
      c <- get_cls ;;
      let valid :=
        match cached_latest c with
        | None => false
        | Some cached =>
            datetime_eqb (attr_ds_time cached) latest &&
            String.eqb (attr_directory cached) directory
        end in
      match cached_latest c, valid with
      | Some cached, true =>
          (if persistent then signal_alarm 60 else ret tt) ;;
          ret cached
      | _, _ =>
          ds <- __init__ latest directory false determineTime ;;
          (if persistent then
             signal_alarm 60 ;;
             c' <- get_cls ;;
             put_cls (mk_class (forecast_range c') (shape c') (axes c') (size c') (Some ds))
           else ret tt) ;;
          ret ds
      end
  end.

End Scan.

(** *** A parser for the worked examples

    A strict reading of ["%Y%m%d%H"]: ten ASCII digits that form a calendar
    date and an hour.  The general results below hold for every
    [strptime]; this one instantiates them on concrete directories. *)
Definition digit_val (c : ascii) : option Z :=
  let n := nat_of_ascii c in
  if ((48 <=? n) && (n <=? 57))%nat then Some (Z.of_nat (n - 48)) else None.

Fixpoint digits_val (s : string) (acc : Z) : option Z :=
  match s with
  | EmptyString => Some acc
  | String c s' =>
      match digit_val c with
      | Some d => digits_val s' (10 * acc + d)
      | None => None
      end
  end.

Definition is_leap (y : Z) : bool :=
  ((y mod 4 =? 0) && negb (y mod 100 =? 0)) || (y mod 400 =? 0).

Definition days_in_month (y m : Z) : Z :=
  if m =? 2 then (if is_leap y then 29 else 28)
  else if (m =? 4) || (m =? 6) || (m =? 9) || (m =? 11) then 30
  else 31.

Definition strptime_YmdH (s : string) : option datetime :=
  if (String.length s =? 10)%nat then
    match digits_val (String.substring 0 4 s) 0, digits_val (String.substring 4 2 s) 0,
          digits_val (String.substring 6 2 s) 0, digits_val (String.substring 8 2 s) 0 with
    | Some y, Some m, Some d, Some h =>
        if (1 <=? y) && (1 <=? m) && (m <=? 12) && (1 <=? d) &&
           (d <=? days_in_month y m) && (h <=? 23)
        then Some (mk_datetime y m d h) else None
    | _, _, _, _ => None
    end
  else None.

(** A process that has just imported the module: nothing cached, no alarm
    pending. *)
Definition boot (f : FS) : World := mk_world class_body f None 0 [].

(** [d.shape], [d.size] on an instance: [__init__] never assigns them on
    [self], so the lookup falls through to the class. *)
Definition instance_shape (d : Dataset) : M Shape := c <- get_cls ;; ret (shape c).
Definition instance_size (d : Dataset) : M Z := c <- get_cls ;; ret (size c).
Definition instance_axes (d : Dataset) : M Axes := c <- get_cls ;; ret (axes c).

(** Bytes of one hour step: every dimension but the first. *)
Definition step_bytes : Z := 4 * 47 * 3 * 361 * 720.

(** The pressure, variable, latitude and longitude extents never change. *)
Definition shape_fixed (c : DatasetClass) : Prop :=
  exists n, shape c = (n, 47, 3, 361, 720).

(** The class attributes [setup] assigns for a given hour range. *)
Definition layout_of (fr : list Z) (cached : option Dataset) : DatasetClass :=
  mk_class fr (make_shape fr) (make_axes fr) (size_of (make_shape fr)) cached.

Definition with_cls (w : World) (c : DatasetClass) : World :=
  mk_world c (w_fs w) (w_alarm w) (w_next w) (w_trace w).

(** The float [time] that [__init__] computes from a file of [sz] bytes
    when [shape[1:]] is [(47, 3, 361, 720)]:
    [sz / 4 / 47 / 3 / 361 / 720], each division rounded. *)
Definition hour_steps (sz : Z) : Q :=
  py.fl (py.fl (py.fl (py.fl (py.fl (inject_Z sz / inject_Z 4) / inject_Z 47)
                         / inject_Z 3) / inject_Z 361) / inject_Z 720).

(** The horizon [__init__] hands to [setup]: [(time - 1) * 3]. *)
Definition derived_hours (sz : Z) : Q :=
  py.fl (py.fl (hour_steps sz - 1) * 3).

(** The sizes for which that computation leaves the finite floats. *)
Definition derive_overflows (sz : Z) : bool :=
  py.overflows (py.fl (inject_Z sz / inject_Z 4)) || py.overflows (derived_hours sz).

(** The sizes a file can have: [off_t] is a signed 64 bit integer. *)
Definition file_size_ok (sz : Z) : Prop := 0 <= sz < 2 ^ 63.

(** The class after [__init__] on an existing file of [sz] bytes. *)
Definition class_after_open (determineTime : bool) (sz : Z) (c : DatasetClass) : DatasetClass :=
  if determineTime
  then layout_of (py.range 0 (py.int (derived_hours sz) + 3) 3) (cached_latest c)
  else c.

(** The state after [__init__] on an existing file: one object allocated,
    the class possibly re-derived, the system calls [evs] made. *)
Definition world_after_open (determineTime : bool) (sz : Z) (evs : list IOEvent)
    (w : World) : World :=
  mk_world (class_after_open determineTime sz (w_cls w)) (w_fs w) (w_alarm w)
           (S (w_next w)) (evs ++ w_trace w).

(** The cached dataset that [open_latest] returns without opening anything,
    if there is one: the test [valid]. *)
Definition cache_hit (c : DatasetClass) (latest : datetime) (dir : string)
    : option Dataset :=
  match cached_latest c with
  | Some cached =>
      if datetime_eqb (ds_time cached) latest && String.eqb (directory cached) dir
      then Some cached else None
  | None => None
  end.

(** The state after [signal.alarm(60)] and, on a fresh open, the
    assignment of [cached_latest]. *)
Definition rearm (w : World) : World :=
  mk_world (w_cls w) (w_fs w) (Some 60) (w_next w) (EvAlarm 60 :: w_trace w).

Definition install (ds : Dataset) (w : World) : World :=
  let c := w_cls w in
  mk_world (mk_class (forecast_range c) (shape c) (axes c) (size c) (Some ds))
           (w_fs w) (Some 60) (w_next w) (EvAlarm 60 :: w_trace w).

(** Calendar order on [datetime]. *)
Definition dt_lt (a b : datetime) : Prop :=
  year a < year b \/ (year a = year b /\
  (month a < month b \/ (month a = month b /\
  (day a < day b \/ (day a = day b /\ hour a < hour b))))).

Definition dt_le (a b : datetime) : Prop := ~ dt_lt b a.

(** *** A worked directory

    Three datasets in the default directory: one of 65 hour steps, one of
    two, and a truncated file. *)
Definition demo_names : list string :=
  ["2014020100"; "2014020103"; "2014013118"]%string.

Definition demo_fs : FS :=
  mk_fs (fun d => if String.eqb d DEFAULT_DIRECTORY then Some demo_names else None)
        (fun p =>
           if String.eqb p "/srv/tawhiri-datasets/2014020103" then Some (step_bytes * 65)
           else if String.eqb p "/srv/tawhiri-datasets/2014020100" then Some (step_bytes * 2)
           else if String.eqb p "/srv/tawhiri-datasets/2014013118" then Some 1000
           else None).

(** A directory whose only dataset file is empty. *)
Definition empty_file_fs : FS :=
  mk_fs (fun d => if String.eqb d DEFAULT_DIRECTORY then Some ["2014020100"%string] else None)
        (fun p => if String.eqb p "/srv/tawhiri-datasets/2014020100" then Some 0 else None).

(** *** States the module can reach *)

(** The class attributes are those [setup] (or the class body) computes
    from one hour range. *)
Definition layout_wf (c : DatasetClass) : Prop :=
  exists hi, c = layout_of (py.range 0 hi 3) (cached_latest c).

(** The cached dataset is an object allocated earlier by [open_latest]. *)
Definition cached_wf (w : World) : Prop :=
  forall d, cached_latest (w_cls w) = Some d ->
    (oid d < w_next w)%nat /\ new d = false /\
    fn d = filename (ds_time d) (directory d) "".

Definition with_fs (w : World) (f : FS) : World :=
  mk_world (w_cls w) f (w_alarm w) (w_next w) (w_trace w).

(** One step of a process using the module: a call of one of its entry
    points, the delivery of the alarm, or a change of the files on disk. *)
Inductive step (strptime : string -> option datetime) : World -> World -> Prop :=
| step_init (t : datetime) (dir : string) (new determineTime : bool) (w : World) :
    step strptime w (snd (__init__ t dir new determineTime w))
| step_open_latest (dir : string) (persistent determineTime : bool) (w : World) :
    step strptime w (snd (open_latest strptime dir persistent determineTime w))
| step_setup (forecastHours : Q) (w : World) :
    step strptime w (snd (setup forecastHours w))
| step_prune (w : World) :
    step strptime w (snd (prune_latest w))
| step_alarm (w : World) :
    step strptime w (deliver_SIGALRM w)
| step_fs (f : FS) (w : World) :
    step strptime w (with_fs w f).

Inductive reachable (strptime : string -> option datetime) : World -> Prop :=
| reach_boot (f : FS) : reachable strptime (boot f)
| reach_step (w w' : World) :
    reachable strptime w -> step strptime w w' -> reachable strptime w'.

End dataset.

(** ** [tawhiri/models.py] *)

Module models.

Local Open Scope Q_scope.

(** The state derivative [(dlat, dlng, dalt)] a model returns. *)
Definition Vec3 : Type := (Q * Q * Q)%type.

Definition vadd (a b : Vec3) : Vec3 :=
  let '(a0, a1, a2) := a in
  let '(b0, b1, b2) := b in
  (a0 + b0, a1 + b1, a2 + b2).

Definition vzero : Vec3 := (0, 0, 0).

(** The module global [descend_mark] is the only state a model touches;
    a computation reads and writes it. *)
Definition G (A : Type) : Type := Q -> A * Q.

Definition ret {A : Type} (a : A) : G A := fun mark => (a, mark).
Definition bind {A B : Type} (m : G A) (k : A -> G B) : G B :=
  fun mark => let '(a, mark') := m mark in k a mark'.
Definition get_mark : G Q := fun mark => (mark, mark).
Definition set_mark (v : Q) : G unit := fun _ => (tt, v).

Declare Scope model_scope.
Delimit Scope model_scope with model.
Notation "x <- m ;; k" := (bind m (fun x => k))
  (at level 61, m at next level, right associativity) : model_scope.
Notation "m ;; k" := (bind m (fun _ => k))
  (at level 61, right associativity) : model_scope.
Local Open Scope model_scope.

(** The value of [descend_mark] when the module is imported. *)
Definition descend_mark_init : Q := - (1).

(** A model is called as [model(t, lat, lng, alt)]. *)
Definition Model : Type := Q -> Q -> Q -> Q -> G Vec3.

(** What a termination criterion returns: [True], [False], or [None] when
    the function falls off its end. *)
Inductive value : Type := VTrue | VFalse | VNone.

Definition truthy (v : value) : bool :=
  match v with VTrue => true | _ => false end.

Definition of_bool (b : bool) : value := if b then VTrue else VFalse.

Definition Terminator : Type := Q -> Q -> Q -> Q -> value.

(** *** Up/down models *)

Definition make_constant_ascent (ascent_rate : Q) : Model :=
  fun t lat lng alt => ret (0, 0, ascent_rate).

Section Sun.

(** [suntime]: the UNIX time of sunrise, and of sunset, at [(lat, lng)] on
    the UTC date of [t]; [None] stands for [SunTimeException]. *)
Variable sunrise_timegm : Q -> Q -> Q -> option Z.
Variable sunset_timegm : Q -> Q -> Q -> option Z.

Definition make_ascent_descent
    (ascent_rate float_alt descent_rate descent_before_sunset descent_duration : Q)
    : Model :=
  fun t lat lng alt =>
    match sunrise_timegm lat lng t with
    | None => ret (0, 0, 0)
    | Some sunrise =>
        let sunrise_t := inject_Z sunrise in
        let descent_t :=
          match sunset_timegm lat lng t with
          | Some sunset => inject_Z sunset - descent_before_sunset
          | None => 0
          end in
        let should_descend :=
          if py.Qltb descent_t sunrise_t
          then py.Qltb 0 descent_t && (py.Qltb descent_t t && py.Qltb t sunrise_t)
          else py.Qltb 0 descent_t && (py.Qltb descent_t t || py.Qltb t sunrise_t) in
        if should_descend then
          mark <- get_mark ;;
          (if py.Qltb mark 0 then set_mark t else ret tt) ;;
          mark <- get_mark ;;
          if Qle_bool 0 descent_duration && py.Qltb (mark + descent_duration) t
          then ret (0, 0, 0)
          else ret (0, 0, - descent_rate)
        else if py.Qltb alt float_alt then
          set_mark (- (1)) ;;
          ret (0, 0, ascent_rate)
        else
          set_mark (- (1)) ;;
          ret (0, 0, 0)
    end.

End Sun.

(** *** Termination criteria *)

Definition make_burst_termination (burst_altitude : Q) : Terminator :=
  fun t lat lng alt => if Qle_bool burst_altitude alt then VTrue else VNone.

Definition sea_level_termination : Terminator :=
  fun t lat lng alt => if Qle_bool alt 0 then VTrue else VNone.

Definition make_time_termination (max_time : Q) : Terminator :=
  fun t lat lng alt => if py.Qltb max_time t then VTrue else VNone.

(** [dataset_get] is [dataset.get] of the elevation dataset. *)
Definition make_elevation_data_termination (dataset_get : Q -> Q -> Q) : Terminator :=
  fun t lat lng alt => of_bool (py.Qltb alt (dataset_get lat lng)).

(** *** Model combinations *)

(** The loop of [linear_model], from the accumulator [acc]. *)
Fixpoint linear_loop (models : list Model) (t lat lng alt : Q) (acc : Vec3) : G Vec3 :=
  match models with
  | [] => ret acc
  | model :: rest =>
      d <- model t lat lng alt ;;
      linear_loop rest t lat lng alt (vadd acc d)
  end.

Definition make_linear_model (models : list Model) : Model :=
  fun t lat lng alt => linear_loop models t lat lng alt (0, 0, 0).

(** [any(...)] over a generator: stops at the first true element. *)
Fixpoint any {A : Type} (f : A -> value) (l : list A) : bool :=
  match l with
  | [] => false
  | x :: l' => if truthy (f x) then true else any f l'
  end.

Definition make_any_terminator (terminators : list Terminator)
    : Q -> Q -> Q -> Q -> bool :=
  fun t lat lng alt => any (fun term : Terminator => term t lat lng alt) terminators.

(** *** Running models *)

(** The outputs of the models of a list called one after the other on the
    same arguments. *)
Fixpoint outputs (models : list Model) (t lat lng alt : Q) : G (list Vec3) :=
  match models with
  | [] => ret []
  | model :: rest =>
      d <- model t lat lng alt ;;
      ds <- outputs rest t lat lng alt ;;
      ret (d :: ds)
  end.

(** A model that does not touch [descend_mark]. *)
Definition pure (f : Q -> Q -> Q -> Q -> Vec3) : Model :=
  fun t lat lng alt => ret (f t lat lng alt).

(** Two models evaluated in one process: a call names the model and gives
    the arguments [(t, lat, lng, alt)]. *)
Inductive who : Type := First | Second.

Definition Call : Type := (who * (Q * Q * Q * Q))%type.

Definition call (m : Model) (args : Q * Q * Q * Q) : G Vec3 :=
  let '(t, lat, lng, alt) := args in m t lat lng alt.

(** The results the first model returns over an interleaved run. *)
Fixpoint first_results (m1 m2 : Model) (calls : list Call) : G (list Vec3) :=
  match calls with
  | [] => ret []
  | (First, args) :: rest =>
      d <- call m1 args ;;
      ds <- first_results m1 m2 rest ;;
      ret (d :: ds)
  | (Second, args) :: rest =>
      call m2 args ;;
      first_results m1 m2 rest
  end.

(** The calls of the first model alone, in order. *)
Fixpoint first_calls (calls : list Call) : list (Q * Q * Q * Q) :=
  match calls with
  | [] => []
  | (First, args) :: rest => args :: first_calls rest
  | (Second, _) :: rest => first_calls rest
  end.

Fixpoint run_alone (m : Model) (argss : list (Q * Q * Q * Q)) : G (list Vec3) :=
  match argss with
  | [] => ret []
  | args :: rest =>
      d <- call m args ;;
      ds <- run_alone m rest ;;
      ret (d :: ds)
  end.

(** *** A worked day

    Sunrise at 06:00 and sunset at 18:00 of day zero, everywhere. *)
Definition demo_sunrise : Q -> Q -> Q -> option Z := fun _ _ _ => Some 21600%Z.
Definition demo_sunset : Q -> Q -> Q -> option Z := fun _ _ _ => Some 64800%Z.

(** Two schedulers with a 100 second descent; the first is called at
    19:26:40 and 19:30:00, the second at 08:20:00 in between. *)
Definition demo_scheduler : Model :=
  make_ascent_descent demo_sunrise demo_sunset 5 30000 5 0 100.

Definition demo_calls : list Call :=
  [(First, (70000, 0, 0, 1000)); (Second, (30000, 0, 0, 1000));
   (First, (70200, 0, 0, 1000))].

(** *** The descent window *)

Section Window.

Variable sunrise_timegm : Q -> Q -> Q -> option Z.
Variable sunset_timegm : Q -> Q -> Q -> option Z.

(** The value [up_down] computes for [should_descend] at
    [(t, lat, lng, alt)]; [None] when the sun does not rise and the call
    returns before computing it. *)
Definition in_window (descent_before_sunset : Q) (args : Q * Q * Q * Q) : option bool :=
  let '(t, lat, lng, alt) := args in
  match sunrise_timegm lat lng t with
  | None => None
  | Some sunrise =>
      let sunrise_t := inject_Z sunrise in
      let descent_t :=
        match sunset_timegm lat lng t with
        | Some sunset => inject_Z sunset - descent_before_sunset
        | None => 0
        end in
      Some (if py.Qltb descent_t sunrise_t
            then py.Qltb 0 descent_t && (py.Qltb descent_t t && py.Qltb t sunrise_t)
            else py.Qltb 0 descent_t && (py.Qltb descent_t t || py.Qltb t sunrise_t))
  end.

End Window.

(** The time of a call. *)
Definition call_time (args : Q * Q * Q * Q) : Q := fst (fst (fst args)).

(** The altitude of a call. *)
Definition call_alt (args : Q * Q * Q * Q) : Q := snd args.

(** What a scheduler with the given rate and duration returns over calls
    that all fall in the descent window, when the cutoff is counted from
    [entry]: hold once the time of the call exceeds [entry] by more than a
    non-negative [descent_duration], descend otherwise. *)
Definition window_results (descent_rate descent_duration entry : Q)
    (argss : list (Q * Q * Q * Q)) : list Vec3 :=
  map (fun args =>
         (0, 0, if Qle_bool 0 descent_duration &&
                   py.Qltb (entry + descent_duration) (call_time args)
                then 0 else - descent_rate)) argss.

End models.

(** ** [tawhiri/generate_wind_json.py] *)

Module generate_wind_json.

Local Open Scope Z_scope.

(** [forecast_days = int(wind.forecast_hours() / 24)] *)
Definition forecast_days (forecast_hours : Z) : Z :=
  py.int (inject_Z forecast_hours / inject_Z 24)%Q.

(** The altitudes of the outer loop. *)
Definition altitudes : list Z := [100; 1500; 5500; 10000; 16000; 21500; 26500].

(** The calls [generateWindJson(i*3, alt)] of the two loops, in order, as
    pairs [(time, alt)]. *)
Definition calls (forecast_days : Z) : list (Z * Z) :=
  flat_map (fun alt => map (fun i => (i * 3, alt)) (py.range 0 (8 * forecast_days) 8))
           altitudes.

(** The two tests on [lat] before the wind lookup. *)
Definition clamp_lat (lat : Q) : Q :=
  let lat := if Qle_bool 90 lat then 8999 # 100 else lat in
  if Qle_bool lat (- (90)) then - (8999 # 100) else lat.

(** [zip(vertices, vertices)] on one iterator: consecutive elements in
    pairs; a last element without partner is consumed and dropped. *)
Fixpoint zip_self {A : Type} (vertices : list A) : list (A * A) :=
  match vertices with
  | a :: b :: rest => (a, b) :: zip_self rest
  | _ => []
  end.

Section Script.

(** The interpolator [get_wind(time, lat, lon, alt)] (taken to return),
    the trigonometric [latLonToXYZ(lat, lon)] at the default radius, and
    [round(_, 2)]. *)
Variable get_wind : Z -> Q -> Q -> Z -> Q * Q.
Variable latLonToXYZ : Q -> Q -> Q * Q * Q.
Variable round2 : Q -> Q.

(** The body of the loop over vertex pairs: the three numbers appended to
    [data]. *)
Definition point (time alt : Z) (lat lon : Q) : list Q :=
  let '(x, y, z) := latLonToXYZ lat lon in
  let lat := clamp_lat lat in
  let '(u, v) := get_wind time lat lon alt in
  let '(x1, y1, z1) := latLonToXYZ (lat + v * (2 # 10))%Q (lon + u * (2 # 10))%Q in
  [round2 (x1 - x)%Q; round2 (y1 - y)%Q; round2 (z1 - z)%Q].

(** [generateWindJson(time, alt)] from the elements the module-level
    iterator [vertices] still holds: the list written under ["data"], and
    what is left of the iterator. *)
Definition generateWindJson (time alt : Z) (vertices : list Q) : list Q * list Q :=
  (flat_map (fun p : Q * Q => point time alt (fst p) (snd p)) (zip_self vertices), []).

(** The files the loops write, as [(alt, time, data)], starting from the
    vertices of [geo6.json]. *)
Fixpoint run_calls (cs : list (Z * Z)) (vertices : list Q) : list (Z * Z * list Q) :=
  match cs with
  | [] => []
  | (time, alt) :: rest =>
      let '(data, vertices') := generateWindJson time alt vertices in
      (alt, time, data) :: run_calls rest vertices'
  end.

End Script.

End generate_wind_json.

(** ** Properties of the binary64 rounding *)

Module FloatFacts.

Local Open Scope Q_scope.

Lemma pow2_pos (e : Z) : 0 < 2 ^ e.
Proof. apply Qpower_0_lt. reflexivity. Qed.

Lemma pow2_plus (a b : Z) : 2 ^ (a + b) == 2 ^ a * 2 ^ b.
Proof. apply Qpower_plus. discriminate. Qed.

Lemma pow2_le (a b : Z) : (a <= b)%Z -> 2 ^ a <= 2 ^ b.
Proof. intros H. apply Qpower_le_compat_l; [ exact H | discriminate ]. Qed.

Lemma pow2_lt_inv (a b : Z) : 2 ^ a < 2 ^ b -> (a < b)%Z.
Proof.
  intros H. destruct (Z.lt_ge_cases a b) as [Hlt | Hge]; [ exact Hlt | ].
  apply pow2_le in Hge. lra.
Qed.

Lemma pow2_Z (a : Z) : (0 <= a)%Z -> inject_Z (2 ^ a) == 2 ^ a.
Proof. intros H. apply Zpower_Qpower. exact H. Qed.

Lemma round_half_even_error (y : Q) :
  - (1 # 2) <= inject_Z (py.round_half_even y) - y <= 1 # 2.
Proof.
  unfold py.round_half_even.
  pose proof (Qfloor_le y) as Hlo. pose proof (Qlt_floor y) as Hhi.
  rewrite inject_Z_plus in Hhi. change (inject_Z 1) with 1 in Hhi.
  destruct (Qcompare (y - inject_Z (Qfloor y)) (1 # 2)) eqn:E.
  - apply Qeq_alt in E.
    destruct (Z.even (Qfloor y)).
    + lra.
    + rewrite inject_Z_plus. change (inject_Z 1) with 1. lra.
  - apply Qlt_alt in E. lra.
  - apply Qgt_alt in E. rewrite inject_Z_plus. change (inject_Z 1) with 1. lra.
Qed.



Lemma fl_Qeq (x y : Q) : x == y -> py.fl x = py.fl y.
Proof. intros H. unfold py.fl. rewrite (Qred_complete x y H). reflexivity. Qed.

Lemma fl_0 (x : Q) : x == 0 -> py.fl x = 0.
Proof. intros H. rewrite (fl_Qeq x 0 H). reflexivity. Qed.

(** The value of [py.fl] away from zero. *)
Lemma fl_value (x : Q) :
  ~ x == 0 ->
  exists x', x' == x /\
    py.fl x == inject_Z (py.round_half_even (x' / py.quantum x')) * py.quantum x'.
Proof.
  intros Hx. exists (Qred x). split; [ apply Qred_correct | ].
  unfold py.fl. cbv zeta.
  destruct (Qeq_bool (Qred x) 0) eqn:E.
  - apply Qeq_bool_eq in E. rewrite Qred_correct in E. contradiction.
  - apply Qred_correct.
Qed.

Lemma quantum_pos (x : Q) : 0 < py.quantum x.
Proof. apply pow2_pos. Qed.

Lemma fl_bound (B x : Q) : - B <= x <= B -> - (2 * B) <= py.fl x <= 2 * B.
Proof.
  intros Hb.
  destruct (Qeq_dec x 0) as [Hz | Hnz].
  - rewrite (fl_0 x Hz). lra.
  - destruct (fl_value x Hnz) as (x' & Ex & Ev). rewrite Ev.
    pose proof (quantum_pos x') as Hq.
    pose proof (round_half_even_error (x' / py.quantum x')) as He.
    set (q := py.quantum x') in *. set (m := py.round_half_even (x' / q)) in *.
    assert (Ey : x' / q * q == x) by (rewrite <- Ex; field; lra).
    set (y := x' / q) in *.
    destruct (Z.lt_trichotomy m 0) as [Hm | [Hm | Hm]].
    + assert (Hm' : inject_Z m <= - 1).
      { change (- 1) with (inject_Z (-1)). rewrite <- Zle_Qle. lia. }
      assert (H2 : 2 * y <= inject_Z m) by lra.
      assert (H3 : 2 * y * q <= inject_Z m * q) by (apply Qmult_le_compat_r; lra).
      assert (H4 : inject_Z m * q <= 0 * q) by (apply Qmult_le_compat_r; lra).
      split; [ | lra ].
      assert (2 * y * q == 2 * x) by (rewrite <- Ey; ring). lra.
    + rewrite Hm. change (inject_Z 0) with 0. lra.
    + assert (Hm' : 1 <= inject_Z m).
      { change 1 with (inject_Z 1). rewrite <- Zle_Qle. lia. }
      assert (H2 : inject_Z m <= 2 * y) by lra.
      assert (H3 : inject_Z m * q <= 2 * y * q) by (apply Qmult_le_compat_r; lra).
      assert (H4 : 0 * q <= inject_Z m * q) by (apply Qmult_le_compat_r; lra).
      split; [ lra | ].
      assert (2 * y * q == 2 * x) by (rewrite <- Ey; ring). lra.
Qed.

Lemma Qmult_le_mono_l (x y z : Q) : 0 <= z -> x <= y -> z * x <= z * y.
Proof.
  intros Hz H. rewrite (Qmult_comm z x), (Qmult_comm z y).
  apply Qmult_le_compat_r; assumption.
Qed.

Lemma Qabs_make (n : Z) (d : positive) : Qabs (n # d) = (Z.abs n # d).
Proof. reflexivity. Qed.

Lemma ilog2_spec (x : Q) :
  ~ x == 0 -> 2 ^ py.ilog2 x <= Qabs x /\ Qabs x < 2 ^ (py.ilog2 x + 1).
Proof.
  intros Hx. destruct x as [n d].
  assert (Hn : (0 < Z.abs n)%Z).
  { assert (n <> 0%Z); [ | lia ].
    intros ->. apply Hx. reflexivity. }
  unfold py.ilog2. cbn [Qnum Qden]. rewrite Qabs_make.
  set (a := Z.log2 (Z.abs n)). set (b := Z.log2 (Zpos d)).
  pose proof (Z.log2_spec (Z.abs n) Hn) as [Ha1 Ha2]. fold a in Ha1, Ha2.
  pose proof (Z.log2_spec (Zpos d) ltac:(lia)) as [Hb1 Hb2]. fold b in Hb1, Hb2.
  assert (Ha0 : (0 <= a)%Z) by apply Z.log2_nonneg.
  assert (Hb0 : (0 <= b)%Z) by apply Z.log2_nonneg.
  assert (Ex : (Z.abs n # d) * inject_Z (Zpos d) == inject_Z (Z.abs n)).
  { unfold Qeq, Qmult, inject_Z. cbn [Qnum Qden]. lia. }
  set (x := Z.abs n # d) in *.
  assert (Hd1 : 2 ^ b <= inject_Z (Zpos d)).
  { rewrite <- pow2_Z by lia. rewrite <- Zle_Qle. exact Hb1. }
  assert (Hd2 : inject_Z (Zpos d) < 2 ^ (b + 1)).
  { rewrite <- pow2_Z by lia. rewrite <- Zlt_Qlt. replace (b + 1)%Z with (Z.succ b) by lia. exact Hb2. }
  assert (Hn1 : 2 ^ a <= inject_Z (Z.abs n)).
  { rewrite <- pow2_Z by lia. rewrite <- Zle_Qle. exact Ha1. }
  assert (Hn2 : inject_Z (Z.abs n) < 2 ^ (a + 1)).
  { rewrite <- pow2_Z by lia. rewrite <- Zlt_Qlt. replace (a + 1)%Z with (Z.succ a) by lia. exact Ha2. }
  assert (Hx0 : 0 <= x) by (unfold x, Qle; cbn; lia).
  pose proof (pow2_pos b) as Hpb.
  (* x < 2^(a-b+1) *)
  assert (Hup : x < 2 ^ (a - b + 1)).
  { apply (proj1 (Qmult_lt_r _ _ (2 ^ b) Hpb)).
    rewrite <- pow2_plus. replace (a - b + 1 + b)%Z with (a + 1)%Z by lia.
    assert (x * 2 ^ b <= x * inject_Z (Zpos d)) by (apply Qmult_le_mono_l; lra).
    lra. }
  (* 2^(a-b-1) <= x *)
  assert (Hlo : 2 ^ (a - b - 1) <= x).
  { pose proof (pow2_pos (b + 1)) as Hpb1.
    apply (proj1 (Qmult_le_r _ _ (2 ^ (b + 1)) Hpb1)).
    rewrite <- pow2_plus. replace (a - b - 1 + (b + 1))%Z with a by lia.
    assert (x * inject_Z (Zpos d) <= x * 2 ^ (b + 1)) by (apply Qmult_le_mono_l; lra).
    lra. }
  destruct (Qle_bool (2 ^ (a - b)) x) eqn:E.
  - apply Qle_bool_iff in E. split; [ exact E | exact Hup ].
  - assert (Hlt : x < 2 ^ (a - b)).
    { apply Qnot_le_lt. intros H. apply Qle_bool_iff in H. congruence. }
    replace (a - b - 1 + 1)%Z with (a - b)%Z by lia. split; [ exact Hlo | exact Hlt ].
Qed.




(** Rounding error of [py.fl] on the normal range: half a unit in the last
    place. *)
Lemma fl_error (x : Q) :
  2 ^ (-1022) <= Qabs x -> Qabs (py.fl x - x) <= Qabs x * 2 ^ (-53).
Proof.
  intros Hn.
  assert (Hx : ~ x == 0).
  { intros H. rewrite H in Hn. pose proof (pow2_pos (-1022)). change (Qabs 0) with 0 in Hn. lra. }
  destruct (fl_value _ Hx) as (x' & Ex & Ev). rewrite Ev.
  assert (Hx' : ~ x' == 0) by (rewrite Ex; exact Hx).
  destruct (ilog2_spec x' Hx') as [Hlo Hhi].
  unfold py.quantum. set (e := py.ilog2 x') in *.
  assert (He : (-1074 <= e - 52)%Z).
  { assert (Hlt : 2 ^ (-1022) < 2 ^ (e + 1)).
    { apply Qle_lt_trans with (2 := Hhi). rewrite Ex. exact Hn. }
    apply pow2_lt_inv in Hlt. lia. }
  replace (Z.max (e - 52) (-1074)) with (e - 52)%Z by lia.
  pose proof (pow2_pos (e - 52)) as Hq. set (q := 2 ^ (e - 52)) in *.
  pose proof (round_half_even_error (x' / q)) as Herr.
  set (m := py.round_half_even (x' / q)) in *.
  assert (Ed : inject_Z m * q - x == (inject_Z m - x' / q) * q) by (rewrite <- Ex; field; lra).
  rewrite Ed, Qabs_Qmult, (Qabs_pos q) by lra.
  assert (Hh : Qabs (inject_Z m - x' / q) <= 1 # 2) by (apply Qabs_Qle_condition; lra).
  assert (Hq2 : q * (1 # 2) <= Qabs x * 2 ^ (-53)).
  { assert (Eq : q * (1 # 2) == 2 ^ e * 2 ^ (-53)).
    { unfold q. replace (e - 52)%Z with (e + -52)%Z by lia. rewrite pow2_plus.
      change (2 ^ (-52)) with (1 # 4503599627370496).
      change (2 ^ (-53)) with (1 # 9007199254740992). field. }
    rewrite Eq. apply Qmult_le_compat_r; [ rewrite <- Ex; exact Hlo | ].
    apply Qlt_le_weak, pow2_pos. }
  apply Qle_trans with (2 := Hq2).
  rewrite (Qmult_comm q). apply Qmult_le_compat_r; [ exact Hh | lra ].
Qed.

Lemma fl_error_pos (x : Q) :
  2 ^ (-1022) <= x -> x * (1 - py.half_ulp) <= py.fl x <= x * (1 + py.half_ulp).
Proof.
  intros Hn. pose proof (pow2_pos (-1022)) as Hp.
  assert (Ha : Qabs x == x) by (apply Qabs_pos; lra).
  pose proof (fl_error x) as H. rewrite Ha in H. specialize (H Hn).
  apply Qabs_Qle_condition in H. change (2 ^ (-53)) with py.half_ulp in H. lra.
Qed.

Lemma fl_error_neg (x : Q) :
  x <= - 2 ^ (-1022) -> x * (1 + py.half_ulp) <= py.fl x <= x * (1 - py.half_ulp).
Proof.
  intros Hn. pose proof (pow2_pos (-1022)) as Hp.
  assert (Ha : Qabs x == - x) by (apply Qabs_neg; lra).
  pose proof (fl_error x) as H. rewrite Ha in H.
  assert (Hn' : 2 ^ (-1022) <= - x) by lra. specialize (H Hn').
  apply Qabs_Qle_condition in H. change (2 ^ (-53)) with py.half_ulp in H. lra.
Qed.

(** A bounded value does not overflow. *)
Lemma overflows_bounded (B x : Q) :
  - B <= x <= B -> B < 2 ^ 1024 -> py.overflows x = false.
Proof.
  intros Hb HB. unfold py.overflows.
  destruct (Qle_bool (2 ^ 1024) (Qabs x)) eqn:E; [ | reflexivity ].
  apply Qle_bool_iff in E.
  assert (Qabs x <= B) by (apply Qabs_Qle_condition; exact Hb).
  lra.
Qed.

End FloatFacts.

(** ** Properties of [tawhiri/dataset.py] *)

Module DatasetFacts.

Import dataset.
Local Open Scope Z_scope.

(** *** Facts about the built-ins *)

Lemma range_len_nonneg (lo hi step : Z) : 0 <= py.range_len lo hi step.
Proof.
  unfold py.range_len.
  destruct (0 <? step) eqn:Hs; cbv [andb]; [ | lia ].
  destruct (lo <? hi) eqn:Hl; [ | lia ].
  apply Z.ltb_lt in Hs. apply Z.ltb_lt in Hl.
  assert (0 <= (hi - 1 - lo) / step) by (apply Z.div_pos; lia).
  lia.
Qed.

Lemma range_length (lo hi step : Z) :
  py.len (py.range lo hi step) = py.range_len lo hi step.
Proof.
  unfold py.len, py.range.
  rewrite length_map, length_seq.
  apply Z2Nat.id, range_len_nonneg.
Qed.

Lemma range_len_step3 (k : Z) : 0 <= k -> py.range_len 0 (3 * k) 3 = k.
Proof.
  intros Hk. unfold py.range_len. change (0 <? 3) with true.
  destruct (0 <? 3 * k) eqn:Hl; cbv [andb].
  - apply Z.ltb_lt in Hl.
    replace (3 * k - 1 - 0) with (2 + (k - 1) * 3) by lia.
    rewrite Z.div_add by lia. change (2 / 3) with 0. lia.
  - apply Z.ltb_ge in Hl. lia.
Qed.

Lemma int_inject_Z (z : Z) : py.int (inject_Z z) = z.
Proof. unfold py.int. simpl. apply Z.quot_1_r. Qed.

(** [int] does not depend on how the rational is written. *)
Lemma int_Qeq (x y : Q) : (x == y)%Q -> py.int x = py.int y.
Proof.
  destruct x as [a b], y as [c d]. unfold Qeq, py.int. simpl. intros H.
  assert (Hdiv : forall a c : Z, 0 <= a -> a * Zpos d = c * Zpos b ->
                   a / Zpos b = c / Zpos d).
  { intros a0 c0 Ha He.
    rewrite <- (Z.div_mul_cancel_r a0 (Zpos b) (Zpos d)) by lia.
    rewrite He, (Z.mul_comm (Zpos b) (Zpos d)).
    apply Z.div_mul_cancel_r; lia. }
  destruct (Z.le_gt_cases 0 a) as [Ha | Ha].
  - assert (0 <= c) by nia.
    rewrite !Z.quot_div_nonneg by lia. auto.
  - assert (Hc : c < 0) by nia.
    replace a with (- (- a)) by lia. replace c with (- (- c)) by lia.
    rewrite (Z.quot_opp_l (- a)), (Z.quot_opp_l (- c)) by lia.
    rewrite (Z.quot_div_nonneg (- a)), (Z.quot_div_nonneg (- c)) by lia.
    f_equal. apply Hdiv; lia.
Qed.

Lemma datetime_eqb_eq (a b : datetime) : datetime_eqb a b = true <-> a = b.
Proof.
  destruct a, b. unfold datetime_eqb. simpl.
  rewrite !andb_true_iff, !Z.eqb_eq. split.
  - intros [[[-> ->] ->] ->]. reflexivity.
  - intros E. inversion E. auto.
Qed.

Lemma datetime_eqb_refl (a : datetime) : datetime_eqb a a = true.
Proof. apply datetime_eqb_eq. reflexivity. Qed.

(** *** The grid layout *)

Lemma fixed_axes_lens (fr : list Z) : axes_lens (make_axes fr) = make_shape fr.
Proof.
  unfold axes_lens, make_axes, make_shape. simpl.
  repeat f_equal; vm_compute; reflexivity.
Qed.

Lemma shape_eqb_refl (s : Shape) : shape_eqb s s = true.
Proof.
  destruct s as [[[[a b] c] d] e]. simpl. rewrite !Z.eqb_refl. reflexivity.
Qed.

(** The assertion in [setup] never fires. *)
Lemma setup_run (forecastHours : Q) (w : World) :
  setup forecastHours w =
  (inr tt, with_cls w (layout_of (py.range 0 (py.int forecastHours + 3) 3)
                                 (cached_latest (w_cls w)))).
Proof.
  unfold setup. rewrite fixed_axes_lens, shape_eqb_refl. reflexivity.
Qed.

Lemma size_of_shape (a b c d e : Z) : size_of (a, b, c, d, e) = 4 * (a * b * c * d * e).
Proof. unfold size_of, element_size. cbv [fold_left shape_list]. ring. Qed.

Lemma size_of_make_shape (fr : list Z) : size_of (make_shape fr) = step_bytes * py.len fr.
Proof. unfold make_shape, step_bytes. rewrite size_of_shape. ring. Qed.

Lemma class_body_is_setup_192 (w : World) :
  snd (setup 192 w) = with_cls w (layout_of (forecast_range class_body) (cached_latest (w_cls w))).
Proof. rewrite setup_run. reflexivity. Qed.

(** C6: for a forecast horizon [h = 3 k], [k >= 0], [setup] succeeds and
    the layout it installs has [len(axes[i]) = shape[i]] on each of the
    five axes, [shape = (h / 3 + 1, 47, 3, 361, 720)] and
    [size = 4 * product(shape)]. *)
Theorem setup_layout_invariant (h : Z) (w : World) :
  0 <= h -> h mod 3 = 0 ->
  exists c,
    setup (inject_Z h) w = (inr tt, with_cls w c) /\
    axes_lens (axes c) = shape c /\
    (forall i, (i < 5)%nat ->
       nth i (shape_list (axes_lens (axes c))) 0 = nth i (shape_list (shape c)) 0) /\
    shape c = (h / 3 + 1, 47, 3, 361, 720) /\
    size c = 4 * ((h / 3 + 1) * 47 * 3 * 361 * 720) /\
    size c = 4 * fold_right Z.mul 1 (shape_list (shape c)) /\
    ax_hour (axes c) = py.range 0 (h + 3) 3.
Proof.
  intros Hh Hm.
  exists (layout_of (py.range 0 (h + 3) 3) (cached_latest (w_cls w))).
  assert (Hlen : py.len (py.range 0 (h + 3) 3) = h / 3 + 1).
  { rewrite range_length.
    pose proof (Z.div_mod h 3 ltac:(lia)) as E. rewrite Hm, Z.add_0_r in E.
    assert (0 <= h / 3) by (apply Z.div_pos; lia).
    replace (h + 3) with (3 * (h / 3 + 1)) by lia.
    apply range_len_step3. lia. }
  split; [ rewrite setup_run, int_inject_Z; reflexivity | ].
  unfold layout_of. cbn [axes shape size].
  rewrite fixed_axes_lens. unfold make_shape. rewrite Hlen.
  repeat split.
  - rewrite size_of_shape. ring.
  - rewrite size_of_shape. cbv [fold_right shape_list]. ring.
Qed.

(** *** Opening an existing file *)

Ltac run_M :=
  cbv beta iota zeta delta
    [__init__ bind ret raise finally alloc open_rb get_fs get_cls put_cls
     do_emit emit truediv int_truediv to_float horizon_of mmap_whole
     signal_alarm prune_latest forecast_hours
     instance_shape instance_size instance_axes listdir
     open_wb seek_write put_fs
     w_cls w_fs w_alarm w_next w_trace fst snd].

(** The fixed extents are floats, far from overflow. *)
Lemma fixed_extents_floats :
  (py.fl (inject_Z 47) = inject_Z 47 /\ py.overflows (inject_Z 47) = false) /\
  (py.fl (inject_Z 3) = inject_Z 3 /\ py.overflows (inject_Z 3) = false) /\
  (py.fl (inject_Z 361) = inject_Z 361 /\ py.overflows (inject_Z 361) = false) /\
  (py.fl (inject_Z 720) = inject_Z 720 /\ py.overflows (inject_Z 720) = false).
Proof. vm_compute. repeat split. Qed.

(** The state after an open that fails before [setup] is reached. *)
Definition world_after_failed_derive (evs : list IOEvent) (w : World) : World :=
  mk_world (w_cls w) (w_fs w) (w_alarm w) (S (w_next w)) (evs ++ w_trace w).

(** The derivation either raises, leaving the state alone, or is one call
    of [setup]. *)
Lemma determine_time_cases (sz : Z) (w : World) :
  (exists e, determine_time sz w = (inl e, w)) \/
  (exists hours, determine_time sz w = setup hours w).
Proof.
  unfold determine_time. run_M.
  repeat match goal with
         | |- context [if ?b =? 0 then _ else _] =>
             destruct (b =? 0); run_M; [ left; eexists; reflexivity | ]
         | |- context [if py.overflows ?x then _ else _] =>
             destruct (py.overflows x); run_M; [ left; eexists; reflexivity | ]
         end.
  right. eexists. reflexivity.
Qed.

(** With the fixed extents it raises on overflow only, and hands
    [derived_hours sz] to [setup]. *)
Lemma determine_time_run (sz : Z) (w : World) :
  shape_fixed (w_cls w) ->
  determine_time sz w =
  if derive_overflows sz then (inl OverflowError, w) else setup (derived_hours sz) w.
Proof.
  intros [n Hn]. destruct w as [c f a nx tr]. cbn [w_cls] in Hn.
  unfold determine_time. run_M. rewrite Hn. unfold element_size.
  cbv beta iota delta [shape1 shape2 shape3 shape4].
  repeat match goal with
         | |- context [Z.eqb (Zpos ?p) 0] =>
             change (Z.eqb (Zpos p) 0) with false; run_M
         end.
  destruct fixed_extents_floats as ((E1 & O1) & (E2 & O2) & (E3 & O3) & (E4 & O4)).
  rewrite !E1, !O1, !E2, !O2, !E3, !O3, !E4, !O4.
  clear E1 O1 E2 O2 E3 O3 E4 O4.
  unfold derive_overflows, derived_hours, hour_steps.
  destruct (py.overflows (py.fl (inject_Z sz / inject_Z 4))); cbn [orb]; run_M;
    [ reflexivity | ].
  match goal with
  | |- context [if py.overflows ?x then _ else _] => destruct (py.overflows x)
  end; run_M; reflexivity.
Qed.

(** What [__init__] does on an existing file, in one equation. *)
Lemma init_existing_run (ds_time : datetime) (directory : string)
    (determineTime : bool) (w : World) (sz : Z) :
  shape_fixed (w_cls w) ->
  fs_size (w_fs w) (filename ds_time directory "") = Some sz ->
  let fn := filename ds_time directory "" in
  let c' := class_after_open determineTime sz (w_cls w) in
  __init__ ds_time directory false determineTime w =
  if determineTime && derive_overflows sz
  then (inl OverflowError, world_after_failed_derive [EvClose fn; EvOpen fn false] w)
  else if negb (sz =? size c')
  then (inl (ValueError_size (size c') sz),
        world_after_open determineTime sz [EvClose fn; EvOpen fn false] w)
  else if sz =? 0
  then (inl ValueError_mmap_empty,
        world_after_open determineTime sz [EvClose fn; EvOpen fn false] w)
  else (inr (mk_dataset (w_next w) directory ds_time false fn (mk_mmap sz false)),
        world_after_open determineTime sz
          [EvClose fn; EvMmap fn false; EvOpen fn false] w).
Proof.
  intros Hinv Hsz fn c'. subst fn c'.
  destruct w as [c f a nx tr]. cbn [w_cls w_fs] in Hinv, Hsz.
  unfold world_after_open, world_after_failed_derive, class_after_open.
  run_M. rewrite Hsz. run_M.
  destruct determineTime; cbn [andb].
  - rewrite determine_time_run by exact Hinv.
    destruct (derive_overflows sz); [ reflexivity | ].
    rewrite setup_run. unfold with_cls. run_M.
    destruct (sz =? _); cbn [negb]; [ | reflexivity ].
    destruct (sz =? 0); reflexivity.
  - run_M. destruct (sz =? size c); cbn [negb]; [ | reflexivity ].
    destruct (sz =? 0); reflexivity.
Qed.

Lemma forecast_hours_run (w : World) :
  forecast_hours w = (inr ((shape0 (shape (w_cls w)) - 1) * 3), w).
Proof. reflexivity. Qed.

(** *** The float derivation of the horizon *)

Lemma fl_div_bound (B x : Q) (d : Z) :
  1 <= d -> (- B <= x <= B)%Q ->
  (- (2 * B) <= py.fl (x / inject_Z d) <= 2 * B)%Q.
Proof.
  intros Hd Hb. apply FloatFacts.fl_bound.
  assert (HD : (1 <= inject_Z d)%Q) by (change 1%Q with (inject_Z 1); rewrite <- Zle_Qle; exact Hd).
  assert (E : (x == x / inject_Z d * inject_Z d)%Q) by (field; lra).
  set (y := (x / inject_Z d)%Q) in *. set (D := inject_Z d) in *.
  destruct (Qlt_le_dec y 0) as [Hy | Hy].
  - assert (y * D <= y * 1)%Q.
    { rewrite (Qmult_comm y D), (Qmult_comm y 1).
      setoid_replace (D * y)%Q with (- (D * - y))%Q by ring.
      setoid_replace (1 * y)%Q with (- (1 * - y))%Q by ring.
      apply Qopp_le_compat. apply Qmult_le_compat_r; lra. }
    lra.
  - assert (y * 1 <= y * D)%Q.
    { rewrite (Qmult_comm y D), (Qmult_comm y 1). apply Qmult_le_compat_r; lra. }
    lra.
Qed.

(** On the sizes a file can have nothing overflows. *)
Lemma derive_no_overflow (sz : Z) : file_size_ok sz -> derive_overflows sz = false.
Proof.
  intros [H0 H1]. unfold derive_overflows, derived_hours, hour_steps.
  assert (Hx : (Qopp 9223372036854775808 <= inject_Z sz <= 9223372036854775808)%Q).
  { change 9223372036854775808%Q with (inject_Z (2 ^ 63)).
    rewrite <- inject_Z_opp, <- !Zle_Qle. lia. }
  pose proof (fl_div_bound _ _ 4 ltac:(lia) Hx) as H4.
  set (t1 := py.fl (inject_Z sz / inject_Z 4)) in *.
  pose proof (fl_div_bound _ _ 47 ltac:(lia) H4) as H47.
  set (t2 := py.fl (t1 / inject_Z 47)) in *.
  pose proof (fl_div_bound _ _ 3 ltac:(lia) H47) as H3.
  set (t3 := py.fl (t2 / inject_Z 3)) in *.
  pose proof (fl_div_bound _ _ 361 ltac:(lia) H3) as H361.
  set (t4 := py.fl (t3 / inject_Z 361)) in *.
  pose proof (fl_div_bound _ _ 720 ltac:(lia) H361) as H720.
  set (time := py.fl (t4 / inject_Z 720)) in *.
  assert (Hm : (- (2 ^ 70) <= time - 1 <= 2 ^ 70)%Q).
  { change (2 ^ 70)%Q with 1180591620717411303424%Q. lra. }
  pose proof (FloatFacts.fl_bound _ _ Hm) as Hd.
  set (d := py.fl (time - 1)) in *.
  assert (Hp : (- (2 ^ 73) <= d * 3 <= 2 ^ 73)%Q).
  { change (2 ^ 70)%Q with 1180591620717411303424%Q in Hd.
    change (2 ^ 73)%Q with 9444732965739290427392%Q. lra. }
  pose proof (FloatFacts.fl_bound _ _ Hp) as Hh.
  rewrite (FloatFacts.overflows_bounded _ _ H4) by reflexivity.
  rewrite (FloatFacts.overflows_bounded _ _ Hh) by reflexivity.
  reflexivity.
Qed.







Lemma init_existing_world (ds_time : datetime) (directory : string)
    (determineTime : bool) (w : World) (sz : Z) :
  shape_fixed (w_cls w) ->
  fs_size (w_fs w) (filename ds_time directory "") = Some sz ->
  determineTime && derive_overflows sz = false ->
  exists evs,
    snd (__init__ ds_time directory false determineTime w) =
    world_after_open determineTime sz evs w.
Proof.
  intros Hinv Hsz Hov.
  rewrite (init_existing_run ds_time directory determineTime w _ Hinv Hsz). cbv zeta.
  rewrite Hov.
  destruct (negb (sz =? _)); [ eexists; reflexivity | ].
  destruct (sz =? 0); eexists; reflexivity.
Qed.

Lemma init_existing_cls (ds_time : datetime) (directory : string)
    (determineTime : bool) (w : World) (sz : Z) :
  shape_fixed (w_cls w) ->
  fs_size (w_fs w) (filename ds_time directory "") = Some sz ->
  determineTime && derive_overflows sz = false ->
  w_cls (snd (__init__ ds_time directory false determineTime w)) =
  class_after_open determineTime sz (w_cls w).
Proof.
  intros Hinv Hsz Hov.
  destruct (init_existing_world ds_time directory determineTime w _ Hinv Hsz Hov) as [evs ->].
  reflexivity.
Qed.

Lemma init_existing_result (ds_time : datetime) (directory : string)
    (determineTime : bool) (w : World) (sz : Z) :
  shape_fixed (w_cls w) ->
  fs_size (w_fs w) (filename ds_time directory "") = Some sz ->
  determineTime && derive_overflows sz = false ->
  let c' := class_after_open determineTime sz (w_cls w) in
  fst (__init__ ds_time directory false determineTime w) =
  if negb (sz =? size c') then inl (ValueError_size (size c') sz)
  else if sz =? 0 then inl ValueError_mmap_empty
  else inr (mk_dataset (w_next w) directory ds_time false
                       (filename ds_time directory "") (mk_mmap sz false)).
Proof.
  intros Hinv Hsz Hov.
  rewrite (init_existing_run ds_time directory determineTime w _ Hinv Hsz). cbv zeta.
  rewrite Hov.
  destruct (negb (sz =? _)); [ reflexivity | ].
  destruct (sz =? 0); reflexivity.
Qed.

Lemma init_existing_trace (ds_time : datetime) (directory : string)
    (determineTime : bool) (w : World) (sz : Z) :
  shape_fixed (w_cls w) ->
  fs_size (w_fs w) (filename ds_time directory "") = Some sz ->
  determineTime && derive_overflows sz = false ->
  let fn := filename ds_time directory "" in
  let c' := class_after_open determineTime sz (w_cls w) in
  w_trace (snd (__init__ ds_time directory false determineTime w)) =
  (if negb (sz =? size c') || (sz =? 0)
   then [EvClose fn; EvOpen fn false]
   else [EvClose fn; EvMmap fn false; EvOpen fn false]) ++ w_trace w.
Proof.
  intros Hinv Hsz Hov.
  rewrite (init_existing_run ds_time directory determineTime w _ Hinv Hsz). cbv zeta.
  rewrite Hov.
  destruct (negb (sz =? _)); [ reflexivity | ].
  destruct (sz =? 0); reflexivity.
Qed.

Lemma no_overflow_flag (determineTime : bool) (sz : Z) :
  file_size_ok sz -> determineTime && derive_overflows sz = false.
Proof. intros H. rewrite (derive_no_overflow sz H). apply andb_false_r. Qed.






(** Creating a file ([new = True]) writes [size] bytes and leaves the
    class alone. *)
Lemma init_new_run (ds_time : datetime) (directory : string)
    (determineTime : bool) (w : World) (names : list string) :
  fs_listdir (w_fs w) directory = Some names ->
  0 < size (w_cls w) ->
  let fn := filename ds_time directory "" in
  let name := strftime_YmdH ds_time in
  __init__ ds_time directory true determineTime w =
  (inr (mk_dataset (w_next w) directory ds_time true fn (mk_mmap (size (w_cls w)) true)),
   mk_world (w_cls w)
            (fs_set (fs_set (w_fs w) directory name fn 0) directory name fn
                    (size (w_cls w) - 1 + 1))
            (w_alarm w) (S (w_next w))
            ([EvClose fn; EvMmap fn true; EvOpen fn true] ++ w_trace w)).
Proof.
  intros Hdir Hpos. cbv zeta.
  destruct w as [c f a nx tr]. cbn [w_cls w_fs w_alarm w_next w_trace] in *.
  run_M. rewrite Hdir. run_M.
  destruct (size c - 1 <? 0) eqn:E; [ apply Z.ltb_lt in E; lia | ].
  run_M.
  destruct (size c =? 0) eqn:E0; [ apply Z.eqb_eq in E0; lia | ].
  reflexivity.
Qed.

(** Creating a file never assigns a class attribute. *)
Lemma init_new_cls (ds_time : datetime) (directory : string)
    (determineTime : bool) (w : World) :
  w_cls (snd (__init__ ds_time directory true determineTime w)) = w_cls w.
Proof.
  destruct w as [c f a nx tr]. run_M.
  destruct (fs_listdir f directory); run_M; [ | reflexivity ].
  destruct (size c - 1 <? 0); run_M; [ reflexivity | ].
  destruct (size c =? 0); reflexivity.
Qed.

Lemma init_cls_cases (ds_time : datetime) (directory : string)
    (new determineTime : bool) (w : World) :
  shape_fixed (w_cls w) ->
  w_cls (snd (__init__ ds_time directory new determineTime w)) = w_cls w \/
  exists sz,
    w_cls (snd (__init__ ds_time directory new determineTime w)) =
    class_after_open true sz (w_cls w).
Proof.
  intros Hinv. destruct new.
  - left. apply init_new_cls.
  - destruct (fs_size (w_fs w) (filename ds_time directory "")) as [sz | ] eqn:Hsz.
    + destruct (determineTime && derive_overflows sz) eqn:Hov.
      * left. rewrite (init_existing_run ds_time directory determineTime w _ Hinv Hsz).
        cbv zeta. rewrite Hov. reflexivity.
      * rewrite (init_existing_cls ds_time directory determineTime w _ Hinv Hsz Hov).
        destruct determineTime; [ right; eauto | left; reflexivity ].
    + left. destruct w as [c f a nx tr]. cbn [w_fs] in Hsz.
      run_M. rewrite Hsz. reflexivity.
Qed.

(** [shape[1:]] is the same in every state the module can reach. *)
Lemma init_keeps_shape_fixed (ds_time : datetime) (directory : string)
    (new determineTime : bool) (w : World) :
  shape_fixed (w_cls w) ->
  shape_fixed (w_cls (snd (__init__ ds_time directory new determineTime w))).
Proof.
  intros Hinv.
  destruct (init_cls_cases ds_time directory new determineTime w Hinv) as [-> | [sz ->]].
  - assumption.
  - eexists. reflexivity.
Qed.

Lemma boot_shape_fixed (f : FS) : shape_fixed (w_cls (boot f)).
Proof. exists 65. reflexivity. Qed.

(** C10: opening an existing file with [determineTime] assigns
    [forecast_range], [shape], [axes] and [size] on the class, whether or
    not the size check then passes; the hour range is that of the float
    horizon [(sz / 4 / 47 / 3 / 361 / 720 - 1) * 3].  The new values are
    what every instance reads, what [forecast_hours] reports, and what
    later calls of [__init__] check an existing file against (the sizing
    error carries the derived size) or create a new file with; an instance
    carries no layout of its own. *)
Theorem open_reassigns_class_layout (ds_time : datetime) (directory : string)
    (w : World) (sz : Z) :
  shape_fixed (w_cls w) ->
  fs_size (w_fs w) (filename ds_time directory "") = Some sz ->
  file_size_ok sz ->
  let w' := snd (__init__ ds_time directory false true w) in
  let fr := py.range 0 (py.int (derived_hours sz) + 3) 3 in
  (forecast_range (w_cls w') = fr /\ shape (w_cls w') = make_shape fr /\
   axes (w_cls w') = make_axes fr /\ size (w_cls w') = size_of (make_shape fr)) /\
  (forall d : Dataset,
     fst (instance_shape d w') = inr (make_shape fr) /\
     fst (instance_axes d w') = inr (make_axes fr) /\
     fst (instance_size d w') = inr (size_of (make_shape fr))) /\
  fst (forecast_hours w') = inr ((py.len fr - 1) * 3) /\
  (forall ds_time2 directory2 sz2,
     fs_size (w_fs w') (filename ds_time2 directory2 "") = Some sz2 ->
     let r2 := fst (__init__ ds_time2 directory2 false false w') in
     (sz2 <> size_of (make_shape fr) ->
      r2 = inl (ValueError_size (size_of (make_shape fr)) sz2)) /\
     ((exists d, r2 = inr d) <-> sz2 = size_of (make_shape fr) /\ sz2 <> 0)) /\
  (forall ds_time2 directory2 names dt,
     fs_listdir (w_fs w') directory2 = Some names ->
     0 < py.len fr ->
     exists d, fst (__init__ ds_time2 directory2 true dt w') = inr d /\
               map_length (array d) = size_of (make_shape fr)).
Proof.
  intros Hinv Hsz Hok. cbv zeta.
  pose proof (init_existing_cls ds_time directory true w _ Hinv Hsz
                (no_overflow_flag true sz Hok)) as Hc.
  pose proof (init_keeps_shape_fixed ds_time directory false true w Hinv) as Hinv'.
  set (w' := snd (__init__ ds_time directory false true w)) in *.
  unfold class_after_open in Hc.
  split; [ rewrite Hc; repeat split | ].
  split; [ intros d; unfold instance_shape, instance_axes, instance_size;
           cbv beta iota delta [bind get_cls ret fst]; rewrite Hc; repeat split | ].
  split; [ rewrite forecast_hours_run, Hc; reflexivity | ].
  split.
  - intros ds_time2 directory2 sz2 H2.
    rewrite (init_existing_result ds_time2 directory2 false w' _ Hinv' H2 eq_refl).
    cbv zeta. unfold class_after_open. rewrite Hc. cbn [size layout_of].
    destruct (sz2 =? _) eqn:E; cbn [negb].
    + apply Z.eqb_eq in E. split; [ intros H; contradiction | ].
      destruct (sz2 =? 0) eqn:E0.
      * apply Z.eqb_eq in E0.
        split; [ intros [d Hd]; discriminate | intros [_ H]; contradiction ].
      * apply Z.eqb_neq in E0. split; [ intros _; split; assumption | eauto ].
    + apply Z.eqb_neq in E. split; [ reflexivity | ].
      split; [ intros [d Hd]; discriminate | intros [H _]; contradiction ].
  - intros ds_time2 directory2 names dt Hdir Hpos.
    rewrite (init_new_run ds_time2 directory2 dt w' names Hdir).
    + cbn [fst]. eexists. split; [ reflexivity | ]. rewrite Hc. reflexivity.
    + rewrite Hc. cbn [size layout_of]. rewrite size_of_make_shape.
      unfold step_bytes. lia.
Qed.

(** A dataset [__init__] returns carries the arguments of the call and the
    file name derived from them. *)
Lemma init_inr_record (t : datetime) (dir : string) (new determineTime : bool)
    (w w1 : World) (d : Dataset) :
  __init__ t dir new determineTime w = (inr d, w1) ->
  d = mk_dataset (w_next w) dir t new (filename t dir "") (array d).
Proof.
  destruct w as [c f a nx tr]. destruct new; run_M.
  - destruct (fs_listdir f dir); run_M; [ | discriminate ].
    destruct (size c - 1 <? 0); run_M; [ discriminate | ].
    destruct (size c =? 0); [ discriminate | ].
    intros [= <- _]. reflexivity.
  - destruct (fs_size f (filename t dir "")) as [sz | ]; run_M; [ | discriminate ].
    destruct determineTime; run_M.
    + match goal with
      | |- context [determine_time sz ?W] =>
          destruct (determine_time_cases sz W) as [[e ->] | [hours ->]]
      end; [ discriminate | ].
      rewrite setup_run. unfold with_cls. run_M.
      destruct (sz =? _); cbn [negb]; [ | discriminate ].
      destruct (sz =? 0); [ discriminate | ].
      intros [= <- _]. reflexivity.
    + destruct (sz =? size c); cbn [negb]; [ | discriminate ].
      destruct (sz =? 0); [ discriminate | ].
      intros [= <- _]. reflexivity.
Qed.

(** A dataset returned by [__init__] is a new object for the requested
    time and directory. *)
Lemma init_inr_fields (t : datetime) (dir : string) (new determineTime : bool)
    (w w1 : World) (d : Dataset) :
  __init__ t dir new determineTime w = (inr d, w1) ->
  ds_time d = t /\ directory d = dir /\ oid d = w_next w.
Proof.
  intros H. rewrite (init_inr_record _ _ _ _ _ _ _ H). auto.
Qed.

(** A successful open of an existing file, seen from its result. *)
Lemma init_existing_inr (t : datetime) (dir : string) (determineTime : bool)
    (w w1 : World) (d : Dataset) :
  shape_fixed (w_cls w) ->
  __init__ t dir false determineTime w = (inr d, w1) ->
  exists sz evs,
    fs_size (w_fs w) (filename t dir "") = Some sz /\
    w1 = world_after_open determineTime sz evs w /\
    d = mk_dataset (w_next w) dir t false (filename t dir "") (mk_mmap sz false).
Proof.
  intros Hinv H.
  destruct (fs_size (w_fs w) (filename t dir "")) as [sz | ] eqn:Hsz.
  - rewrite (init_existing_run t dir determineTime w _ Hinv Hsz) in H. cbv zeta in H.
    destruct (determineTime && derive_overflows sz); [ discriminate | ].
    destruct (negb (sz =? _)); [ discriminate | ].
    destruct (sz =? 0); [ discriminate | ].
    injection H as <- <-. eauto.
  - destruct w as [c f a nx tr]. cbn [w_fs] in Hsz. revert H.
    run_M. rewrite Hsz. discriminate.
Qed.

(** *** Directory scan *)

Lemma datetime_ltb_spec (a b : datetime) : datetime_ltb a b = true <-> dt_lt a b.
Proof.
  unfold datetime_ltb, dt_lt.
  rewrite !orb_true_iff, !andb_true_iff, !orb_true_iff, !andb_true_iff,
          !orb_true_iff, !andb_true_iff, !Z.ltb_lt, !Z.eqb_eq.
  reflexivity.
Qed.

Lemma dt_le_refl (a : datetime) : dt_le a a.
Proof. unfold dt_le, dt_lt. lia. Qed.

Lemma dt_le_trans (a b c : datetime) : dt_le a b -> dt_le b c -> dt_le a c.
Proof. unfold dt_le, dt_lt. lia. Qed.

Lemma dt_le_antisym (a b : datetime) : dt_le a b -> dt_le b a -> a = b.
Proof.
  destruct a, b. unfold dt_le, dt_lt. cbn [year month day hour]. intros H1 H2.
  f_equal; lia.
Qed.

Lemma row_ltb_true (a b : Row) :
  row_ltb a b = true -> dt_le (row_ds_time a) (row_ds_time b).
Proof.
  unfold row_ltb. rewrite orb_true_iff, andb_true_iff.
  intros [H | [H _]].
  - apply datetime_ltb_spec in H. unfold dt_le, dt_lt in *. lia.
  - apply datetime_eqb_eq in H. rewrite H. apply dt_le_refl.
Qed.

Lemma row_ltb_false (a b : Row) :
  row_ltb a b = false -> dt_le (row_ds_time b) (row_ds_time a).
Proof.
  unfold row_ltb. rewrite orb_false_iff. intros [H _].
  unfold dt_le. rewrite <- datetime_ltb_spec, H. discriminate.
Qed.

Lemma insert_desc_In {A : Type} (lt : A -> A -> bool) (x y : A) (l : list A) :
  In y (py.insert_desc lt x l) <-> y = x \/ In y l.
Proof.
  induction l as [ | z l IH]; simpl.
  - intuition auto.
  - destruct (lt x z); simpl; rewrite ?IH; intuition auto.
Qed.

Lemma sorted_rev_In {A : Type} (lt : A -> A -> bool) (y : A) (l : list A) :
  In y (py.sorted_rev lt l) <-> In y l.
Proof.
  induction l as [ | x l IH]; simpl.
  - reflexivity.
  - rewrite insert_desc_In, IH. intuition auto.
Qed.

(** The head of an insertion is the later of the new row and the old head. *)
Lemma insert_desc_head (x : Row) (l : list Row) :
  (forall h t, l = h :: t -> forall r, In r l -> dt_le (row_ds_time r) (row_ds_time h)) ->
  exists h t, py.insert_desc row_ltb x l = h :: t /\
    forall r, In r (x :: l) -> dt_le (row_ds_time r) (row_ds_time h).
Proof.
  intros Hl. destruct l as [ | y l]; simpl.
  - exists x, []. split; [ reflexivity | ].
    intros r [<- | []]. apply dt_le_refl.
  - specialize (Hl y l eq_refl).
    destruct (row_ltb x y) eqn:E.
    + eexists _, _. split; [ reflexivity | ].
      intros r [<- | Hr]; [ apply row_ltb_true, E | apply Hl, Hr ].
    + eexists _, _. split; [ reflexivity | ].
      intros r [<- | Hr]; [ apply dt_le_refl | ].
      eapply dt_le_trans; [ apply Hl, Hr | apply row_ltb_false, E ].
Qed.

(** [sorted(rows, reverse=True)[0]] carries the latest forecast time. *)
Lemma sorted_rev_head (rows : list Row) :
  rows <> [] ->
  exists first rest,
    py.sorted_rev row_ltb rows = first :: rest /\
    In first rows /\
    forall r, In r rows -> dt_le (row_ds_time r) (row_ds_time first).
Proof.
  induction rows as [ | x rows IH]; [ congruence | intros _ ].
  assert (Hl : forall h t, py.sorted_rev row_ltb rows = h :: t ->
                 forall r, In r (py.sorted_rev row_ltb rows) ->
                           dt_le (row_ds_time r) (row_ds_time h)).
  { intros h t E r Hr. destruct rows as [ | y rows']; [ discriminate | ].
    destruct IH as (f & rest & E' & _ & Hmax); [ congruence | ].
    rewrite E' in E. injection E as <- <-.
    apply Hmax. apply sorted_rev_In in Hr. exact Hr. }
  destruct (insert_desc_head x _ Hl) as (h & t & E & Hmax).
  exists h, t. split; [ exact E | ]. split.
  - apply (sorted_rev_In row_ltb h (x :: rows)). simpl. rewrite E. left. reflexivity.
  - intros r [<- | Hr]; apply Hmax; [ left; reflexivity | right ].
    apply sorted_rev_In, Hr.
Qed.

Section ScanFacts.

Variable strptime : string -> option datetime.

(** The rows are those of the names that pass the loop body, in listing
    order. *)
Lemma listdir_rows_In (directory : string) (only : option (list string))
    (names : list string) (r : Row) :
  In r (listdir_rows strptime directory only names) <->
  exists filename, In filename names /\
                   listdir_step strptime directory only filename = Some r.
Proof.
  induction names as [ | n names IH]; simpl.
  - split; [ intros [] | intros (f & [] & _) ].
  - destruct (listdir_step strptime directory only n) as [r0 | ] eqn:E; simpl;
      rewrite IH; split.
    + intros [<- | (f & Hf & Hs)]; eauto.
    + intros (f & [<- | Hf] & Hs); [ left; congruence | right; eauto ].
    + intros (f & Hf & Hs); eauto.
    + intros (f & [<- | Hf] & Hs); [ congruence | eauto ].
Qed.

(** When the loop body yields a row. *)
Lemma listdir_step_Some (directory : string) (only : option (list string))
    (filename : string) (r : Row) :
  listdir_step strptime directory only filename = Some r <->
  (10 <= String.length filename)%nat /\
  exists t, strptime (py.take 10 filename) = Some t /\
    r = mk_row t (py.drop 10 filename) filename (py.path_join directory filename) /\
    (suffices_truthy only = true -> suffix_in (py.drop 10 filename) only = true).
Proof.
  unfold listdir_step.
  destruct (String.length filename <? 10)%nat eqn:El.
  - apply Nat.ltb_lt in El. split; [ discriminate | intros [H _]; lia ].
  - apply Nat.ltb_ge in El.
    destruct (strptime (py.take 10 filename)) as [t | ].
    + destruct (suffices_truthy only); simpl.
      * destruct (suffix_in (py.drop 10 filename) only); simpl; split.
        -- intros [= <-]. eauto 6.
        -- intros (_ & t' & [= <-] & -> & _). reflexivity.
        -- discriminate.
        -- intros (_ & t' & _ & _ & H). specialize (H eq_refl). discriminate.
      * split.
        -- intros [= <-]. split; [ exact El | ]. exists t. repeat split. discriminate.
        -- intros (_ & t' & [= <-] & -> & _). reflexivity.
    + split; [ discriminate | intros (_ & t & H & _); discriminate ].
Qed.

(** [open_latest] in one equation, once the directory has been listed. *)
Lemma open_latest_run (directory : string) (persistent determineTime : bool)
    (w : World) (names : list string) (first : Row) (rest : list Row) :
  fs_listdir (w_fs w) directory = Some names ->
  py.sorted_rev row_ltb (listdir_rows strptime directory (Some [""%string]) names)
    = first :: rest ->
  open_latest strptime directory persistent determineTime w =
  match cache_hit (w_cls w) (row_ds_time first) directory with
  | Some cached => (inr cached, if persistent then rearm w else w)
  | None =>
      match __init__ (row_ds_time first) directory false determineTime w with
      | (inl e, w1) => (inl e, w1)
      | (inr ds, w1) => (inr ds, if persistent then install ds w1 else w1)
      end
  end.
Proof.
  intros Hdir Hsort.
  unfold open_latest, listdir, cache_hit, attr_ds_time, attr_directory.
  unfold bind at 1. unfold bind at 1. unfold get_fs at 1.
  rewrite Hdir. unfold ret at 1. rewrite Hsort.
  unfold bind at 1. unfold get_cls at 1.
  destruct w as [c f a nx tr]. cbn [w_cls].
  destruct (cached_latest c) as [cached | ].
  - destruct (datetime_eqb (ds_time cached) (row_ds_time first) &&
              String.eqb (dataset.directory cached) directory).
    + destruct persistent; reflexivity.
    + unfold bind at 1.
      destruct (__init__ (row_ds_time first) directory false determineTime _)
        as [[e | ds] [c1 f1 a1 n1 t1]]; [ reflexivity | ].
      destruct persistent; reflexivity.
  - unfold bind at 1.
    destruct (__init__ (row_ds_time first) directory false determineTime _)
      as [[e | ds] [c1 f1 a1 n1 t1]]; [ reflexivity | ].
    destruct persistent; reflexivity.
Qed.

Lemma cache_hit_Some (c : DatasetClass) (latest : datetime) (dir : string)
    (cached : Dataset) :
  cache_hit c latest dir = Some cached <->
  cached_latest c = Some cached /\ ds_time cached = latest /\
  dataset.directory cached = dir.
Proof.
  unfold cache_hit. destruct (cached_latest c) as [d | ].
  - destruct (datetime_eqb (ds_time d) latest) eqn:Et;
      destruct (String.eqb (dataset.directory d) dir) eqn:Ed; cbn [andb].
    + apply datetime_eqb_eq in Et. apply String.eqb_eq in Ed. split.
      * intros [= <-]. auto.
      * intros ([= <-] & _ & _). reflexivity.
    + apply String.eqb_neq in Ed.
      split; [ discriminate | intros ([= <-] & _ & Hd); contradiction ].
    + split; [ discriminate | intros ([= <-] & Ht & _) ].
      apply datetime_eqb_eq in Ht. congruence.
    + split; [ discriminate | intros ([= <-] & Ht & _) ].
      apply datetime_eqb_eq in Ht. congruence.
  - split; [ discriminate | intros ([=] & _) ].
Qed.

(** Whatever [open_latest] returns is a dataset for the selected time in
    the requested directory. *)
Lemma open_latest_inr_fields (directory : string) (persistent determineTime : bool)
    (w : World) (names : list string) (first : Row) (rest : list Row) (d : Dataset) :
  fs_listdir (w_fs w) directory = Some names ->
  py.sorted_rev row_ltb (listdir_rows strptime directory (Some [""%string]) names)
    = first :: rest ->
  fst (open_latest strptime directory persistent determineTime w) = inr d ->
  ds_time d = row_ds_time first /\ dataset.directory d = directory.
Proof.
  intros Hdir Hsort.
  rewrite (open_latest_run directory persistent determineTime w names first rest Hdir Hsort).
  destruct (cache_hit (w_cls w) (row_ds_time first) directory) as [cached | ] eqn:Eh.
  - cbn [fst]. intros [= <-]. apply cache_hit_Some in Eh. tauto.
  - destruct (__init__ (row_ds_time first) directory false determineTime w)
      as [[e | ds] w1] eqn:Ei; cbn [fst]; [ discriminate | ].
    intros [= <-]. apply init_inr_fields in Ei. tauto.
Qed.

(** On a cache miss the call is the open of the selected time, and the
    dataset is cached when [persistent] is set. *)
Lemma open_latest_miss_run (directory : string) (persistent determineTime : bool)
    (w : World) (names : list string) (first : Row) (rest : list Row) :
  fs_listdir (w_fs w) directory = Some names ->
  py.sorted_rev row_ltb (listdir_rows strptime directory (Some [""%string]) names)
    = first :: rest ->
  cache_hit (w_cls w) (row_ds_time first) directory = None ->
  open_latest strptime directory persistent determineTime w =
  match __init__ (row_ds_time first) directory false determineTime w with
  | (inl e, w1) => (inl e, w1)
  | (inr ds, w1) => (inr ds, if persistent then install ds w1 else w1)
  end.
Proof.
  intros Hdir Hsort Hmiss.
  rewrite (open_latest_run directory persistent determineTime w names first rest Hdir Hsort).
  rewrite Hmiss. reflexivity.
Qed.

(** When the file of the selected time passes the size check, a cache miss
    opens and maps that file. *)
Lemma open_latest_opens (directory : string) (persistent determineTime : bool)
    (w : World) (names : list string) (first : Row) (rest : list Row) (sz : Z) :
  fs_listdir (w_fs w) directory = Some names ->
  py.sorted_rev row_ltb (listdir_rows strptime directory (Some [""%string]) names)
    = first :: rest ->
  cache_hit (w_cls w) (row_ds_time first) directory = None ->
  shape_fixed (w_cls w) ->
  let fn := filename (row_ds_time first) directory "" in
  fs_size (w_fs w) fn = Some sz ->
  file_size_ok sz ->
  sz = size (class_after_open determineTime sz (w_cls w)) ->
  sz <> 0 ->
  let ds := mk_dataset (w_next w) directory (row_ds_time first) false fn (mk_mmap sz false) in
  let w1 := world_after_open determineTime sz
              [EvClose fn; EvMmap fn false; EvOpen fn false] w in
  open_latest strptime directory persistent determineTime w =
  (inr ds, if persistent then install ds w1 else w1).
Proof.
  intros Hdir Hsort Hmiss Hinv fn Hsz Hok Hsize Hne. cbv zeta.
  rewrite (open_latest_miss_run directory persistent determineTime w names first rest
             Hdir Hsort Hmiss).
  rewrite (init_existing_run (row_ds_time first) directory determineTime w _ Hinv Hsz).
  cbv zeta. rewrite (no_overflow_flag determineTime sz Hok).
  assert (E : (sz =? size (class_after_open determineTime sz (w_cls w))) = true)
    by (apply Z.eqb_eq; exact Hsize).
  assert (E0 : (sz =? 0) = false) by (apply Z.eqb_neq; exact Hne).
  rewrite E, E0. reflexivity.
Qed.

(** The scan [open_latest] runs keeps rows with an empty suffix only. *)
Lemma empty_suffix_rows (directory : string) (names : list string) (r : Row) :
  In r (listdir_rows strptime directory (Some [""%string]) names) ->
  row_suffix r = ""%string.
Proof.
  intros Hr. apply listdir_rows_In in Hr. destruct Hr as (f & _ & Hs).
  apply listdir_step_Some in Hs. destruct Hs as (_ & t & _ & -> & Hf).
  specialize (Hf eq_refl). cbn [row_suffix]. cbn in Hf.
  rewrite orb_false_r in Hf. apply String.eqb_eq in Hf. exact Hf.
Qed.

End ScanFacts.

(** C3: when the scan of [directory] for empty-suffix names yields at least
    one row, [open_latest] selects a row whose forecast time is the latest
    among them, and unless the cached dataset is returned it opens the
    dataset of that time: the call is [__init__] on the selected time, and
    when the file of that name passes the size check the result is a new
    dataset for that time and directory that maps the whole file, after
    one open, one mmap and one close of it.  For the names 2014020100,
    2014020103 and 2014013118 the selected time is 2014-02-01 03h and the
    file opened is [2014020103]. *)
Theorem open_latest_selects_maximum :
  (forall (strptime : string -> option datetime) (directory : string)
          (persistent determineTime : bool) (w : World) (names : list string),
      fs_listdir (w_fs w) directory = Some names ->
      let rows := listdir_rows strptime directory (Some [""%string]) names in
      rows <> [] ->
      exists first,
        let latest := row_ds_time first in
        let fn := filename latest directory "" in
        In first rows /\ row_suffix first = ""%string /\
        (forall r, In r rows -> dt_le (row_ds_time r) latest) /\
        (forall d, fst (open_latest strptime directory persistent determineTime w) = inr d ->
                   ds_time d = latest /\ dataset.directory d = directory) /\
        (cache_hit (w_cls w) latest directory = None ->
         open_latest strptime directory persistent determineTime w =
         match __init__ latest directory false determineTime w with
         | (inl e, w1) => (inl e, w1)
         | (inr ds, w1) => (inr ds, if persistent then install ds w1 else w1)
         end) /\
        (forall sz,
           cache_hit (w_cls w) latest directory = None ->
           shape_fixed (w_cls w) ->
           fs_size (w_fs w) fn = Some sz ->
           file_size_ok sz ->
           sz = size (class_after_open determineTime sz (w_cls w)) ->
           sz <> 0 ->
           let ds := mk_dataset (w_next w) directory latest false fn (mk_mmap sz false) in
           let w1 := world_after_open determineTime sz
                       [EvClose fn; EvMmap fn false; EvOpen fn false] w in
           open_latest strptime directory persistent determineTime w =
           (inr ds, if persistent then install ds w1 else w1))) /\
  (forall (directory : string) (persistent determineTime : bool) (w : World),
      fs_listdir (w_fs w) directory =
        Some ["2014020100"; "2014020103"; "2014013118"]%string ->
      let latest := mk_datetime 2014 2 1 3 in
      let fn := py.path_join directory "2014020103" in
      (forall d, fst (open_latest strptime_YmdH directory persistent determineTime w) = inr d ->
                 ds_time d = latest /\ dataset.directory d = directory) /\
      (cache_hit (w_cls w) latest directory = None ->
       open_latest strptime_YmdH directory persistent determineTime w =
       match __init__ latest directory false determineTime w with
       | (inl e, w1) => (inl e, w1)
       | (inr ds, w1) => (inr ds, if persistent then install ds w1 else w1)
       end) /\
      (forall sz,
         cache_hit (w_cls w) latest directory = None ->
         shape_fixed (w_cls w) ->
         fs_size (w_fs w) fn = Some sz ->
         file_size_ok sz ->
         sz = size (class_after_open determineTime sz (w_cls w)) ->
         sz <> 0 ->
         let ds := mk_dataset (w_next w) directory latest false fn (mk_mmap sz false) in
         let w1 := world_after_open determineTime sz
                     [EvClose fn; EvMmap fn false; EvOpen fn false] w in
         open_latest strptime_YmdH directory persistent determineTime w =
         (inr ds, if persistent then install ds w1 else w1))).
Proof.
  split.
  - intros strptime directory persistent determineTime w names Hdir rows Hne.
    destruct (sorted_rev_head rows Hne) as (first & rest & Hsort & Hin & Hmax).
    exists first. cbv zeta. split; [ exact Hin | ].
    split; [ eapply empty_suffix_rows; exact Hin | ].
    split; [ exact Hmax | ].
    split; [ | split ].
    + intros d. eapply open_latest_inr_fields; eassumption.
    + eapply open_latest_miss_run; eassumption.
    + intros sz Hmiss Hinv Hsz Hok Hsize Hnz.
      exact (open_latest_opens strptime directory persistent determineTime w names
               first rest sz Hdir Hsort Hmiss Hinv Hsz Hok Hsize Hnz).
  - intros directory persistent determineTime w Hdir latest fn.
    set (first := mk_row latest "" "2014020103" (py.path_join directory "2014020103")).
    assert (Hsort : exists rest,
      py.sorted_rev row_ltb
        (listdir_rows strptime_YmdH directory (Some [""%string])
           ["2014020100"; "2014020103"; "2014013118"]%string) = first :: rest).
    { eexists. reflexivity. }
    destruct Hsort as [rest Hsort]. split; [ | split ].
    + intros d. apply (open_latest_inr_fields _ _ _ _ _ _ first rest d Hdir Hsort).
    + apply (open_latest_miss_run _ _ _ _ _ _ first rest Hdir Hsort).
    + intros sz Hmiss Hinv Hsz Hok Hsize Hnz.
      exact (open_latest_opens strptime_YmdH directory persistent determineTime w _
               first rest sz Hdir Hsort Hmiss Hinv Hsz Hok Hsize Hnz).
Qed.

Lemma class_after_open_cached (determineTime : bool) (sz : Z) (c : DatasetClass) :
  cached_latest (class_after_open determineTime sz c) = cached_latest c.
Proof. destruct determineTime; reflexivity. Qed.

(** C4: [open_latest] returns the cached dataset, opening nothing, exactly
    when there is one whose [ds_time] is the latest time of the scan and
    whose [directory] is the requested one.  Otherwise it is [__init__] on
    the latest time: a new object, which becomes [cached_latest] when
    [persistent] is set and leaves [cached_latest] alone when it is not.
    Hence a second [open_latest(directory, persistent=True)] on the state
    left by a first successful one returns the same object. *)
Theorem latest_cache_hit_rule (strptime : string -> option datetime)
    (directory : string) (persistent determineTime determineTime2 : bool)
    (w : World) (names : list string) :
  shape_fixed (w_cls w) ->
  fs_listdir (w_fs w) directory = Some names ->
  let rows := listdir_rows strptime directory (Some [""%string]) names in
  rows <> [] ->
  exists latest,
    In latest (map row_ds_time rows) /\
    (forall r, In r rows -> dt_le (row_ds_time r) latest) /\
    (forall cached,
        cached_latest (w_cls w) = Some cached ->
        ds_time cached = latest -> dataset.directory cached = directory ->
        open_latest strptime directory persistent determineTime w =
        (inr cached, if persistent then rearm w else w)) /\
    ((forall cached,
         cached_latest (w_cls w) = Some cached ->
         ds_time cached <> latest \/ dataset.directory cached <> directory) ->
     fst (open_latest strptime directory persistent determineTime w) =
     fst (__init__ latest directory false determineTime w) /\
     forall ds w1,
       __init__ latest directory false determineTime w = (inr ds, w1) ->
       oid ds = w_next w /\
       cached_latest (w_cls (snd (open_latest strptime directory persistent determineTime w)))
       = if persistent then Some ds else cached_latest (w_cls w)) /\
    (forall d1 w1,
        open_latest strptime directory true determineTime w = (inr d1, w1) ->
        open_latest strptime directory true determineTime2 w1 = (inr d1, rearm w1)).
Proof.
  intros Hinv Hdir rows Hne.
  destruct (sorted_rev_head rows Hne) as (first & rest & Hsort & Hin & Hmax).
  exists (row_ds_time first).
  split; [ apply in_map, Hin | ].
  split; [ exact Hmax | ].
  pose proof (fun p dt => open_latest_run strptime directory p dt w names first rest
                            Hdir Hsort) as Hrun.
  split; [ | split ].
  - intros cached Hc Ht Hd. rewrite Hrun.
    assert (Hh : cache_hit (w_cls w) (row_ds_time first) directory = Some cached)
      by (apply cache_hit_Some; auto).
    rewrite Hh. reflexivity.
  - intros Hmiss.
    assert (Hh : cache_hit (w_cls w) (row_ds_time first) directory = None).
    { destruct (cache_hit (w_cls w) (row_ds_time first) directory) as [cached | ] eqn:E;
        [ | reflexivity ].
      apply cache_hit_Some in E. destruct E as (Hc & Ht & Hd).
      destruct (Hmiss cached Hc); contradiction. }
    rewrite Hrun, Hh. split.
    + destruct (__init__ (row_ds_time first) directory false determineTime w)
        as [[e | ds] w1]; reflexivity.
    + intros ds w1 Hi. rewrite Hi. cbn [snd].
      split; [ apply (init_inr_fields _ _ _ _ _ _ _ Hi) | ].
      destruct persistent; [ reflexivity | ].
      destruct (init_existing_inr _ _ _ _ _ _ Hinv Hi) as (sz & evs & _ & -> & _).
      apply class_after_open_cached.
  - intros d1 w1. rewrite Hrun.
    destruct (cache_hit (w_cls w) (row_ds_time first) directory) as [cached | ] eqn:Eh.
    + intros [= <- <-].
      rewrite (open_latest_run strptime directory true determineTime2 (rearm w)
                 names first rest Hdir Hsort).
      cbn [rearm w_cls]. rewrite Eh. reflexivity.
    + destruct (__init__ (row_ds_time first) directory false determineTime w)
        as [[e | ds] w0] eqn:Hi; [ discriminate | ].
      intros [= <- <-].
      destruct (init_inr_fields _ _ _ _ _ _ _ Hi) as (Ht & Hd & _).
      destruct (init_existing_inr _ _ _ _ _ _ Hinv Hi) as (sz & evs & _ & -> & _).
      assert (Hdir' : fs_listdir (w_fs (install ds (world_after_open determineTime sz evs w)))
                        directory = Some names) by exact Hdir.
      rewrite (open_latest_run strptime directory true determineTime2 _
                 names first rest Hdir' Hsort).
      assert (Hh : cache_hit (w_cls (install ds (world_after_open determineTime sz evs w)))
                     (row_ds_time first) directory = Some ds)
        by (apply cache_hit_Some; auto).
      rewrite Hh. reflexivity.
Qed.

(** *** The suffix filter *)

(** An empty collection as [only_suffices] filters nothing: the scan is
    that of [only_suffices = None]. *)
Lemma listdir_empty_filter_is_no_filter (strptime : string -> option datetime)
    (directory : string) (names : list string) :
  listdir_rows strptime directory (Some []) names =
  listdir_rows strptime directory None names.
Proof.
  induction names as [ | n names IH]; [ reflexivity | ].
  cbn [listdir_rows]. rewrite IH.
  change (listdir_step strptime directory (Some []) n)
    with (listdir_step strptime directory None n).
  reflexivity.
Qed.

(** With [None] or a non-empty collection the rows are exactly those of
    the names of ten or more characters whose first ten parse, the rest of
    the name being the suffix, kept when the suffix is in the collection. *)
Lemma listdir_rows_spec (strptime : string -> option datetime)
    (directory : string) (only : option (list string)) (names : list string) (r : Row) :
  only <> Some [] ->
  In r (listdir_rows strptime directory only names) <->
  exists filename t,
    In filename names /\ (10 <= String.length filename)%nat /\
    strptime (py.take 10 filename) = Some t /\
    r = mk_row t (py.drop 10 filename) filename (py.path_join directory filename) /\
    match only with
    | None => True
    | Some l => In (py.drop 10 filename) l
    end.
Proof.
  intros Hne. rewrite listdir_rows_In. split.
  - intros (f & Hf & Hs). apply listdir_step_Some in Hs.
    destruct Hs as (Hl & t & Ht & -> & Hm).
    exists f, t.
    split; [ exact Hf | ]. split; [ exact Hl | ]. split; [ exact Ht | ].
    split; [ reflexivity | ].
    destruct only as [[ | s l] | ]; [ congruence | | exact I ].
    specialize (Hm eq_refl). cbn [suffix_in] in Hm.
    apply existsb_exists in Hm. destruct Hm as (x & Hx & E).
    apply String.eqb_eq in E. subst x. exact Hx.
  - intros (f & t & Hf & Hl & Ht & -> & Hm).
    exists f. split; [ exact Hf | ]. apply listdir_step_Some.
    split; [ exact Hl | ]. exists t. repeat split; auto.
    intros Htr. destruct only as [l | ]; cbn [suffix_in]; [ | discriminate Htr ].
    apply existsb_exists. exists (py.drop 10 f). split; [ exact Hm | ].
    apply String.eqb_refl.
Qed.

(** *** The invariant of the class, and expiry *)

Lemma open_latest_keeps_shape_fixed (strptime : string -> option datetime)
    (directory : string) (persistent determineTime : bool) (w : World) :
  shape_fixed (w_cls w) ->
  shape_fixed (w_cls (snd (open_latest strptime directory persistent determineTime w))).
Proof.
  intros Hinv.
  destruct (fs_listdir (w_fs w) directory) as [names | ] eqn:Hdir.
  - destruct (py.sorted_rev row_ltb
                (listdir_rows strptime directory (Some [""%string]) names))
      as [ | first rest] eqn:Hsort.
    + unfold open_latest, listdir. unfold bind at 1. unfold bind at 1.
      unfold get_fs at 1. rewrite Hdir. unfold ret at 1. rewrite Hsort. exact Hinv.
    + rewrite (open_latest_run strptime directory persistent determineTime w names
                 first rest Hdir Hsort).
      destruct (cache_hit (w_cls w) (row_ds_time first) directory).
      * destruct persistent; exact Hinv.
      * pose proof (init_keeps_shape_fixed (row_ds_time first) directory false
                      determineTime w Hinv) as H.
        destruct (__init__ (row_ds_time first) directory false determineTime w)
          as [[e | ds] w1]; cbn [snd] in *; [ exact H | ].
        destruct persistent; exact H.
  - unfold open_latest, listdir. unfold bind at 1. unfold bind at 1.
    unfold get_fs at 1. rewrite Hdir. exact Hinv.
Qed.

Lemma deliver_SIGALRM_keeps_shape_fixed (w : World) :
  shape_fixed (w_cls w) -> shape_fixed (w_cls (deliver_SIGALRM w)).
Proof. intros H. exact H. Qed.

(** Once the alarm has fired nothing is cached, so the next [open_latest]
    is a fresh [__init__]. *)
Lemma expiry_clears_cache (w : World) (latest : datetime) (dir : string) :
  cache_hit (w_cls (deliver_SIGALRM w)) latest dir = None /\
  w_alarm (deliver_SIGALRM w) = None.
Proof. split; reflexivity. Qed.

Lemma setup_layout_invariant_witness :
  0 <= 192 /\ 192 mod 3 = 0 /\
  exists c, setup (inject_Z 192) (boot demo_fs) = (inr tt, with_cls (boot demo_fs) c) /\
            shape c = (65, 47, 3, 361, 720) /\ size c = 9528667200.
Proof.
  split; [ lia | ]. split; [ reflexivity | ].
  destruct (setup_layout_invariant 192 (boot demo_fs)) as (c & Hrun & _ & _ & Hsh & Hsz & _);
    [ lia | reflexivity | ].
  exists c. split; [ exact Hrun | ]. split; [ exact Hsh | exact Hsz ].
Defined.


(** An empty file passes the size check of a deriving open: the derived
    layout has no hour and [size] is 0.  The open fails all the same, in
    [mmap], so the size being right is not enough for it to succeed. *)
Lemma empty_file_open_counterexample :
  let t := mk_datetime 2014 2 1 0 in
  let w := boot empty_file_fs in
  let r := fst (__init__ t DEFAULT_DIRECTORY false true w) in
  let w' := snd (__init__ t DEFAULT_DIRECTORY false true w) in
  fs_size (w_fs w) (filename t DEFAULT_DIRECTORY "") = Some 0 /\
  size (w_cls w') = 0 /\
  r = inl ValueError_mmap_empty /\
  ~ ((exists d, r = inr d) <-> 0 = size (w_cls w')).
Proof.
  cbv zeta.
  assert (Hr : fst (__init__ (mk_datetime 2014 2 1 0) DEFAULT_DIRECTORY false true
                      (boot empty_file_fs)) = inl ValueError_mmap_empty)
    by (vm_compute; reflexivity).
  assert (Hs : size (w_cls (snd (__init__ (mk_datetime 2014 2 1 0) DEFAULT_DIRECTORY
                                   false true (boot empty_file_fs)))) = 0)
    by (vm_compute; reflexivity).
  split; [ reflexivity | ]. split; [ exact Hs | ]. split; [ exact Hr | ].
  rewrite Hr, Hs. intros [_ H]. destruct (H eq_refl) as [d Hd]. discriminate.
Qed.


Lemma open_reassigns_class_layout_witness :
  shape_fixed (w_cls (boot demo_fs)) /\
  fs_size (w_fs (boot demo_fs))
          (filename (mk_datetime 2014 2 1 0) DEFAULT_DIRECTORY "") = Some (step_bytes * 2) /\
  file_size_ok (step_bytes * 2) /\
  fst (forecast_hours
         (snd (__init__ (mk_datetime 2014 2 1 0) DEFAULT_DIRECTORY false true
                        (boot demo_fs))))
  = inr ((py.len (py.range 0 (py.int (derived_hours (step_bytes * 2)) + 3) 3) - 1) * 3).
Proof.
  assert (H1 : shape_fixed (w_cls (boot demo_fs))) by (exists 65; reflexivity).
  assert (H2 : fs_size (w_fs (boot demo_fs))
                 (filename (mk_datetime 2014 2 1 0) DEFAULT_DIRECTORY "")
               = Some (step_bytes * 2)) by reflexivity.
  assert (H3 : file_size_ok (step_bytes * 2)) by (split; [ discriminate | reflexivity ]).
  split; [ exact H1 | ]. split; [ exact H2 | ]. split; [ exact H3 | ].
  exact (proj1 (proj2 (proj2 (open_reassigns_class_layout (mk_datetime 2014 2 1 0)
                                DEFAULT_DIRECTORY (boot demo_fs) (step_bytes * 2) H1 H2 H3)))).
Defined.

Lemma open_latest_selects_maximum_witness :
  let fn := "/srv/tawhiri-datasets/2014020103"%string in
  fs_listdir (w_fs (boot demo_fs)) DEFAULT_DIRECTORY = Some demo_names /\
  cache_hit (w_cls (boot demo_fs)) (mk_datetime 2014 2 1 3) DEFAULT_DIRECTORY = None /\
  shape_fixed (w_cls (boot demo_fs)) /\
  fs_size (w_fs (boot demo_fs)) fn = Some 9528667200 /\
  file_size_ok 9528667200 /\
  9528667200 = size (class_after_open true 9528667200 (w_cls (boot demo_fs))) /\
  fst (open_latest strptime_YmdH DEFAULT_DIRECTORY false true (boot demo_fs)) =
    inr (mk_dataset 0 DEFAULT_DIRECTORY (mk_datetime 2014 2 1 3) false fn
                    (mk_mmap 9528667200 false)) /\
  w_trace (snd (open_latest strptime_YmdH DEFAULT_DIRECTORY false true (boot demo_fs))) =
    [EvClose fn; EvMmap fn false; EvOpen fn false].
Proof.
  cbv zeta.
  assert (H1 : fs_listdir (w_fs (boot demo_fs)) DEFAULT_DIRECTORY = Some demo_names)
    by reflexivity.
  assert (H2 : cache_hit (w_cls (boot demo_fs)) (mk_datetime 2014 2 1 3) DEFAULT_DIRECTORY
               = None) by reflexivity.
  assert (H3 : shape_fixed (w_cls (boot demo_fs))) by (exists 65; reflexivity).
  assert (H4 : fs_size (w_fs (boot demo_fs)) (py.path_join DEFAULT_DIRECTORY "2014020103")
               = Some 9528667200) by reflexivity.
  assert (H5 : file_size_ok 9528667200) by (split; [ discriminate | reflexivity ]).
  assert (H6 : 9528667200 = size (class_after_open true 9528667200 (w_cls (boot demo_fs))))
    by (vm_compute; reflexivity).
  assert (H7 : 9528667200 <> 0) by discriminate.
  split; [ exact H1 | ]. split; [ exact H2 | ]. split; [ exact H3 | ].
  split; [ exact H4 | ]. split; [ exact H5 | ]. split; [ exact H6 | ].
  rewrite (proj2 (proj2 (proj2 open_latest_selects_maximum DEFAULT_DIRECTORY false true
                           (boot demo_fs) H1))
             9528667200 H2 H3 H4 H5 H6 H7).
  split; reflexivity.
Defined.

Lemma latest_cache_hit_rule_witness :
  shape_fixed (w_cls (boot demo_fs)) /\
  fs_listdir (w_fs (boot demo_fs)) DEFAULT_DIRECTORY = Some demo_names /\
  listdir_rows strptime_YmdH DEFAULT_DIRECTORY (Some [""%string]) demo_names <> [] /\
  forall d1 w1,
    open_latest strptime_YmdH DEFAULT_DIRECTORY true true (boot demo_fs) = (inr d1, w1) ->
    open_latest strptime_YmdH DEFAULT_DIRECTORY true true w1 = (inr d1, rearm w1).
Proof.
  assert (H0 : shape_fixed (w_cls (boot demo_fs))) by (exists 65; reflexivity).
  assert (H1 : fs_listdir (w_fs (boot demo_fs)) DEFAULT_DIRECTORY = Some demo_names)
    by reflexivity.
  assert (H2 : listdir_rows strptime_YmdH DEFAULT_DIRECTORY (Some [""%string]) demo_names
               <> []) by discriminate.
  split; [ exact H0 | ]. split; [ exact H1 | ]. split; [ exact H2 | ].
  destruct (latest_cache_hit_rule strptime_YmdH DEFAULT_DIRECTORY true true true
              (boot demo_fs) demo_names H0 H1 H2) as (latest & _ & _ & _ & _ & Htwice).
  exact Htwice.
Defined.

(** C7: [listdir] yields a row for each name of ten or more characters
    whose first ten parse, the rest being the suffix, and skips the others
    ([listdir_rows_spec]); but an [only_suffices] that is given and empty
    filters nothing.  On a directory holding a grid file, a grib mirror
    and a stray file, the empty collection yields both dataset rows, though
    neither suffix is in it, where [{".gribmirror"}] yields only the
    mirror. *)
Lemma listdir_empty_filter_yields_rows :
  let f := mk_fs (fun _ => Some ["2014020100"; "2014020100.gribmirror"; "README"]%string)
                 (fun _ => None) in
  fst (listdir strptime_YmdH DEFAULT_DIRECTORY (Some []) (boot f)) =
  inr [ mk_row (mk_datetime 2014 2 1 0) "" "2014020100"
               "/srv/tawhiri-datasets/2014020100";
        mk_row (mk_datetime 2014 2 1 0) ".gribmirror" "2014020100.gribmirror"
               "/srv/tawhiri-datasets/2014020100.gribmirror" ] /\
  fst (listdir strptime_YmdH DEFAULT_DIRECTORY (Some [".gribmirror"%string]) (boot f)) =
  inr [ mk_row (mk_datetime 2014 2 1 0) ".gribmirror" "2014020100.gribmirror"
               "/srv/tawhiri-datasets/2014020100.gribmirror" ].
Proof. split; reflexivity. Qed.

(** *** Reachable states *)

Lemma layout_wf_shape_fixed (c : DatasetClass) : layout_wf c -> shape_fixed c.
Proof. intros [hi E]. rewrite E. eexists. reflexivity. Qed.

Lemma layout_of_wf (fr_hi : Z) (cached : option Dataset) :
  layout_wf (layout_of (py.range 0 fr_hi 3) cached).
Proof. exists fr_hi. reflexivity. Qed.

(** What any call of [__init__] leaves unchanged, and the only way it
    changes the class. *)
Lemma init_frame (t : datetime) (dir : string) (new determineTime : bool) (w : World) :
  let w' := snd (__init__ t dir new determineTime w) in
  w_next w' = S (w_next w) /\ w_alarm w' = w_alarm w /\
  (new = false -> w_fs w' = w_fs w) /\
  (w_cls w' = w_cls w \/
   exists hi, w_cls w' = layout_of (py.range 0 hi 3) (cached_latest (w_cls w))).
Proof.
  cbv zeta. destruct w as [c f a nx tr]. destruct new; run_M.
  - destruct (fs_listdir f dir); run_M; [ | repeat split; auto; discriminate ].
    destruct (size c - 1 <? 0); run_M; [ repeat split; auto; discriminate | ].
    destruct (size c =? 0); repeat split; auto; discriminate.
  - destruct (fs_size f (filename t dir "")) as [sz | ]; run_M;
      [ | repeat split; auto ].
    destruct determineTime; run_M.
    + match goal with
      | |- context [determine_time sz ?W] =>
          destruct (determine_time_cases sz W) as [[e ->] | [hours ->]]
      end; [ repeat split; auto | ].
      rewrite setup_run. unfold with_cls. run_M.
      destruct (sz =? _); cbn [negb]; [ | repeat split; eauto ].
      destruct (sz =? 0); repeat split; eauto.
    + destruct (sz =? size c); cbn [negb]; [ | repeat split; auto ].
      destruct (sz =? 0); repeat split; auto.
Qed.

Lemma init_keeps_cached (t : datetime) (dir : string) (new determineTime : bool) (w : World) :
  cached_latest (w_cls (snd (__init__ t dir new determineTime w))) =
  cached_latest (w_cls w).
Proof.
  destruct (init_frame t dir new determineTime w) as (_ & _ & _ & [-> | [hi ->]]);
    reflexivity.
Qed.

Lemma init_keeps_layout_wf (t : datetime) (dir : string) (new determineTime : bool) (w : World) :
  layout_wf (w_cls w) ->
  layout_wf (w_cls (snd (__init__ t dir new determineTime w))).
Proof.
  intros H.
  destruct (init_frame t dir new determineTime w) as (_ & _ & _ & [-> | [hi ->]]).
  - exact H.
  - apply layout_of_wf.
Qed.

(** The three ways [open_latest] can go, by what the directory holds. *)
Lemma open_latest_cases (strptime : string -> option datetime) (directory : string)
    (persistent determineTime : bool) (w : World) :
  (fs_listdir (w_fs w) directory = None /\
   open_latest strptime directory persistent determineTime w =
   (inl (FileNotFoundError directory), w)) \/
  (exists names,
     fs_listdir (w_fs w) directory = Some names /\
     listdir_rows strptime directory (Some [""%string]) names = [] /\
     open_latest strptime directory persistent determineTime w = (inl IndexError, w)) \/
  (exists names first rest,
     fs_listdir (w_fs w) directory = Some names /\
     py.sorted_rev row_ltb (listdir_rows strptime directory (Some [""%string]) names)
       = first :: rest /\
     open_latest strptime directory persistent determineTime w =
     match cache_hit (w_cls w) (row_ds_time first) directory with
     | Some cached => (inr cached, if persistent then rearm w else w)
     | None =>
         match __init__ (row_ds_time first) directory false determineTime w with
         | (inl e, w1) => (inl e, w1)
         | (inr ds, w1) => (inr ds, if persistent then install ds w1 else w1)
         end
     end).
Proof.
  destruct (fs_listdir (w_fs w) directory) as [names | ] eqn:Hdir.
  - right.
    destruct (py.sorted_rev row_ltb
                (listdir_rows strptime directory (Some [""%string]) names))
      as [ | first rest] eqn:Hsort.
    + left. exists names. split; [ reflexivity | ]. split.
      * destruct (listdir_rows strptime directory (Some [""%string]) names)
          as [ | r rows] eqn:E; [ reflexivity | exfalso ].
        assert (Hin : In r (py.sorted_rev row_ltb (r :: rows)))
          by (apply sorted_rev_In; left; reflexivity).
        rewrite Hsort in Hin. exact Hin.
      * unfold open_latest, listdir. unfold bind at 1. unfold bind at 1.
        unfold get_fs at 1. rewrite Hdir. unfold ret at 1. rewrite Hsort. reflexivity.
    + right. exists names, first, rest. split; [ reflexivity | ].
      split; [ exact Hsort | ].
      exact (open_latest_run strptime directory persistent determineTime w names
               first rest Hdir Hsort).
  - left. split; [ reflexivity | ].
    unfold open_latest, listdir. unfold bind at 1. unfold bind at 1.
    unfold get_fs at 1. rewrite Hdir. reflexivity.
Qed.

Definition state_inv (w : World) : Prop := layout_wf (w_cls w) /\ cached_wf w.

Lemma init_keeps_inv (t : datetime) (dir : string) (new determineTime : bool) (w : World) :
  state_inv w -> state_inv (snd (__init__ t dir new determineTime w)).
Proof.
  intros [Hl Hc]. split; [ apply init_keeps_layout_wf, Hl | ].
  intros d Hd. rewrite init_keeps_cached in Hd.
  destruct (init_frame t dir new determineTime w) as (Hn & _).
  rewrite Hn. destruct (Hc d Hd) as (Ho & Hrest). split; [ lia | exact Hrest ].
Qed.

Lemma open_latest_keeps_inv (strptime : string -> option datetime) (directory : string)
    (persistent determineTime : bool) (w : World) :
  state_inv w -> state_inv (snd (open_latest strptime directory persistent determineTime w)).
Proof.
  intros Hinv.
  destruct (open_latest_cases strptime directory persistent determineTime w)
    as [(_ & ->) | [(names & _ & _ & ->) | (names & first & rest & _ & _ & ->)]];
    try exact Hinv.
  destruct (cache_hit (w_cls w) (row_ds_time first) directory).
  - destruct persistent; exact Hinv.
  - pose proof (init_keeps_inv (row_ds_time first) directory false determineTime w Hinv)
      as Hinv1.
    pose proof (init_frame (row_ds_time first) directory false determineTime w)
      as (Hn & _).
    destruct (__init__ (row_ds_time first) directory false determineTime w)
      as [[e | ds] w1] eqn:Hi; cbn [snd] in *; [ exact Hinv1 | ].
    destruct persistent; [ | exact Hinv1 ].
    destruct Hinv1 as [[hi Hl] Hc]. split.
    + exists hi. unfold install. cbn [w_cls cached_latest].
      rewrite Hl at 1 2 3 4. reflexivity.
    + intros d. unfold install. cbn [w_cls cached_latest w_next]. intros [= <-].
      rewrite (init_inr_record _ _ _ _ _ _ _ Hi). cbn [oid new fn ds_time dataset.directory].
      rewrite Hn. split; [ lia | split; reflexivity ].
Qed.

(** In every state a process can reach the class layout is the one of a
    single hour range, with [shape[1:] = (47, 3, 361, 720)], and the cached
    dataset, if any, is an object allocated by an earlier call. *)
Theorem reachable_state_inv (strptime : string -> option datetime) (w : World) :
  reachable strptime w ->
  layout_wf (w_cls w) /\ cached_wf w /\ shape_fixed (w_cls w) /\
  axes_lens (axes (w_cls w)) = shape (w_cls w) /\
  size (w_cls w) = step_bytes * py.len (forecast_range (w_cls w)).
Proof.
  intros Hr.
  assert (Hinv : state_inv w).
  { induction Hr as [f | w w' Hr IH Hs].
    - split; [ exists (192 + 3); reflexivity | intros d [=] ].
    - destruct Hs.
      + apply init_keeps_inv, IH.
      + apply open_latest_keeps_inv, IH.
      + rewrite setup_run. destruct IH as [_ Hc]. split; [ apply layout_of_wf | exact Hc ].
      + destruct IH as [[hi Hl] _]. split.
        * exists hi. cbn. rewrite Hl at 1 2 3 4. reflexivity.
        * intros d [=].
      + destruct IH as [[hi Hl] _]. split.
        * exists hi. cbn. rewrite Hl at 1 2 3 4. reflexivity.
        * intros d [=].
      + exact IH. }
  destruct Hinv as [Hl Hc].
  split; [ exact Hl | ]. split; [ exact Hc | ].
  split; [ apply layout_wf_shape_fixed, Hl | ].
  destruct Hl as [hi Hl]. rewrite Hl. cbn [axes shape size forecast_range layout_of].
  split; [ apply fixed_axes_lens | apply size_of_make_shape ].
Qed.

(** *** Expiry, failures and the cache *)

(** After the alarm has fired, a persistent [open_latest] that succeeds
    returns an object that did not exist before, not the one that was
    cached, stores it in [cached_latest] and arms the alarm again. *)
Theorem expiry_then_open_latest_is_fresh (strptime : string -> option datetime)
    (directory : string) (determineTime : bool) (w w' : World) (d : Dataset) :
  cached_wf w ->
  open_latest strptime directory true determineTime (deliver_SIGALRM w) = (inr d, w') ->
  oid d = w_next w /\
  (forall old, cached_latest (w_cls w) = Some old -> oid d <> oid old) /\
  cached_latest (w_cls w') = Some d /\
  w_alarm w' = Some 60 /\
  w_next w' = S (w_next w).
Proof.
  intros Hc H.
  destruct (open_latest_cases strptime directory true determineTime (deliver_SIGALRM w))
    as [(_ & E) | [(names & _ & _ & E) | (names & first & rest & _ & _ & E)]];
    rewrite E in H; try discriminate.
  destruct (expiry_clears_cache w (row_ds_time first) directory) as [Hh _].
  rewrite Hh in H.
  pose proof (init_frame (row_ds_time first) directory false determineTime
                (deliver_SIGALRM w)) as (Hn & _).
  destruct (__init__ (row_ds_time first) directory false determineTime (deliver_SIGALRM w))
    as [[e | ds] w1] eqn:Hi; [ discriminate | ].
  injection H as <- <-. cbn [snd] in Hn.
  destruct (init_inr_fields _ _ _ _ _ _ _ Hi) as (_ & _ & Ho).
  change (w_next (deliver_SIGALRM w)) with (w_next w) in *.
  split; [ exact Ho | ]. split.
  - intros old Hold. destruct (Hc old Hold) as (Hlt & _). lia.
  - unfold install. cbn [w_cls cached_latest w_alarm w_next]. auto.
Qed.

(** [open_latest] touches [cached_latest] and the alarm only when
    [persistent] is set and it returns a dataset: a call that raises, and
    any call with [persistent = False], leaves both as they were. *)
Theorem open_latest_cache_frame (strptime : string -> option datetime)
    (directory : string) (persistent determineTime : bool) (w : World) :
  let r := fst (open_latest strptime directory persistent determineTime w) in
  let w' := snd (open_latest strptime directory persistent determineTime w) in
  (persistent = false \/ exists e, r = inl e) ->
  cached_latest (w_cls w') = cached_latest (w_cls w) /\ w_alarm w' = w_alarm w.
Proof.
  cbv zeta. intros H.
  destruct (open_latest_cases strptime directory persistent determineTime w)
    as [(_ & E) | [(names & _ & _ & E) | (names & first & rest & _ & _ & E)]];
    rewrite E in *; cbn [fst snd] in *; auto.
  destruct (cache_hit (w_cls w) (row_ds_time first) directory) as [cached | ].
  - cbn [fst snd] in *. destruct H as [-> | [e He]]; [ auto | discriminate ].
  - pose proof (init_keeps_cached (row_ds_time first) directory false determineTime w) as Hk.
    pose proof (init_frame (row_ds_time first) directory false determineTime w)
      as (_ & Ha & _).
    destruct (__init__ (row_ds_time first) directory false determineTime w)
      as [[e | ds] w1]; cbn [fst snd] in *; [ auto | ].
    destruct H as [-> | [e He]]; [ auto | discriminate ].
Qed.

(** *** Strings *)

Lemma str_length_app (a b : string) :
  String.length (a ++ b)%string = (String.length a + String.length b)%nat.
Proof. induction a as [ | c a IH]; cbn; [ reflexivity | rewrite IH; reflexivity ]. Qed.

Lemma substring_0_all (s : string) : String.substring 0 (String.length s) s = s.
Proof. induction s as [ | c s IH]; cbn; [ reflexivity | rewrite IH; reflexivity ]. Qed.

Lemma substring_0_app (a b : string) :
  String.substring 0 (String.length a) (a ++ b)%string = a.
Proof.
  induction a as [ | c a IH]; cbn.
  - destruct b; reflexivity.
  - rewrite IH. reflexivity.
Qed.

Lemma substring_skip_app (a b : string) (m : nat) :
  String.substring (String.length a) m (a ++ b)%string = String.substring 0 m b.
Proof. induction a as [ | c a IH]; cbn; [ reflexivity | exact IH ]. Qed.

Lemma substring_length (s : string) (n m : nat) :
  (n + m <= String.length s)%nat -> String.length (String.substring n m s) = m.
Proof.
  revert n m. induction s as [ | c s IH]; intros n m H; cbn in H.
  - assert (n = 0%nat) by lia. assert (m = 0%nat) by lia. subst. reflexivity.
  - destruct n as [ | n]; cbn.
    + destruct m as [ | m]; cbn; [ reflexivity | ]. rewrite IH by lia. reflexivity.
    + apply IH. lia.
Qed.

Lemma take_app (a b : string) : py.take (String.length a) (a ++ b)%string = a.
Proof. apply substring_0_app. Qed.

Lemma drop_app (a b : string) : py.drop (String.length a) (a ++ b)%string = b.
Proof.
  unfold py.drop. rewrite substring_skip_app, str_length_app.
  replace (String.length a + String.length b - String.length a)%nat
    with (String.length b) by lia.
  apply substring_0_all.
Qed.

Lemma take_drop (n : nat) (s : string) :
  (n <= String.length s)%nat -> (py.take n s ++ py.drop n s)%string = s.
Proof.
  unfold py.take, py.drop. revert n. induction s as [ | c s IH]; intros n H; cbn in H.
  - assert (n = 0%nat) by lia. subst. reflexivity.
  - destruct n as [ | n].
    + rewrite Nat.sub_0_r, substring_0_all. reflexivity.
    + cbn [String.substring String.length Nat.sub]. cbn [String.append].
      rewrite IH by lia. reflexivity.
Qed.

Lemma zfill_length (width : nat) (v : Z) (acc : string) :
  String.length (py.zfill width v acc) = (width + String.length acc)%nat.
Proof.
  revert v acc. induction width as [ | w IH]; intros v acc; cbn [py.zfill].
  - reflexivity.
  - rewrite IH. cbn [String.length]. lia.
Qed.

(** [strftime("%Y%m%d%H")] always gives ten characters. *)
Lemma strftime_length (t : datetime) : String.length (strftime_YmdH t) = 10%nat.
Proof.
  unfold strftime_YmdH. rewrite !str_length_app, !zfill_length. reflexivity.
Qed.

(** *** File names and the scan *)

(** The scan [open_latest] runs keeps a name exactly when it is ten
    characters long and parses. *)
Lemma listdir_step_empty_suffix (strptime : string -> option datetime)
    (directory name : string) :
  listdir_step strptime directory (Some [""%string]) name =
  if (String.length name =? 10)%nat
  then match strptime name with
       | Some t => Some (mk_row t "" name (py.path_join directory name))
       | None => None
       end
  else None.
Proof.
  unfold listdir_step.
  destruct (String.length name <? 10)%nat eqn:El.
  - apply Nat.ltb_lt in El.
    destruct (String.length name =? 10)%nat eqn:E; [ | reflexivity ].
    apply Nat.eqb_eq in E. lia.
  - apply Nat.ltb_ge in El.
    destruct (String.length name =? 10)%nat eqn:E.
    + apply Nat.eqb_eq in E.
      assert (Ht : py.take 10 name = name)
        by (unfold py.take; rewrite <- E; apply substring_0_all).
      assert (Hd : py.drop 10 name = ""%string).
      { assert (Hl : String.length (py.drop 10 name) = (String.length name - 10)%nat)
          by (apply substring_length; lia).
        destruct (py.drop 10 name); [ reflexivity | cbn in Hl; lia ]. }
      rewrite Ht, Hd. reflexivity.
    + apply Nat.eqb_neq in E.
      destruct (strptime (py.take 10 name)); [ | reflexivity ].
      assert (Hl : String.length (py.drop 10 name) = (String.length name - 10)%nat)
        by (apply substring_length; lia).
      destruct (py.drop 10 name) as [ | c s]; [ cbn in Hl; lia | reflexivity ].
Qed.

Lemma listdir_rows_nil (strptime : string -> option datetime) (directory : string)
    (only : option (list string)) (names : list string) :
  listdir_rows strptime directory only names = [] <->
  forall n, In n names -> listdir_step strptime directory only n = None.
Proof.
  induction names as [ | n names IH]; cbn [listdir_rows].
  - split; [ intros _ n [] | reflexivity ].
  - destruct (listdir_step strptime directory only n) eqn:E.
    + split; [ discriminate | ]. intros H.
      specialize (H n (or_introl eq_refl)). congruence.
    + rewrite IH. split.
      * intros H m [<- | Hm]; [ exact E | apply H, Hm ].
      * intros H m Hm. apply H. right. exact Hm.
Qed.

(** [open_latest] on a directory that does not exist raises the error of
    [os.listdir]; on a directory with no ten-character name that parses it
    raises [IndexError].  In both cases nothing else happens: no file is
    opened, the cache and the alarm are as before. *)
Theorem open_latest_nothing_found (strptime : string -> option datetime)
    (directory : string) (persistent determineTime : bool) (w : World) :
  (fs_listdir (w_fs w) directory = None ->
   open_latest strptime directory persistent determineTime w =
   (inl (FileNotFoundError directory), w)) /\
  (forall names,
     fs_listdir (w_fs w) directory = Some names ->
     (forall n, In n names -> String.length n = 10%nat -> strptime n = None) ->
     open_latest strptime directory persistent determineTime w = (inl IndexError, w)).
Proof.
  split.
  - intros Hdir.
    destruct (open_latest_cases strptime directory persistent determineTime w)
      as [(_ & E) | [(names & H & _) | (names & first & rest & H & _)]];
      [ exact E | congruence | congruence ].
  - intros names Hdir Hnone.
    assert (Hrows : listdir_rows strptime directory (Some [""%string]) names = []).
    { apply listdir_rows_nil. intros n Hn. rewrite listdir_step_empty_suffix.
      destruct (String.length n =? 10)%nat eqn:E; [ | reflexivity ].
      apply Nat.eqb_eq in E. rewrite (Hnone n Hn E). reflexivity. }
    destruct (open_latest_cases strptime directory persistent determineTime w)
      as [(H & _) | [(names' & H & _ & E) | (names' & first & rest & H & Hs & _)]].
    + congruence.
    + exact E.
    + rewrite Hdir in H. injection H as <-. rewrite Hrows in Hs. discriminate.
Qed.

Lemma listdir_finds_filename (strptime : string -> option datetime)
    (t : datetime) (directory suffix : string) (only : option (list string))
    (w : World) (names : list string) :
  strptime (strftime_YmdH t) = Some t ->
  (suffices_truthy only = true -> suffix_in suffix only = true) ->
  fs_listdir (w_fs w) directory = Some names ->
  In (strftime_YmdH t ++ suffix)%string names ->
  exists rows,
    listdir strptime directory only w = (inr rows, w) /\
    In (mk_row t suffix (strftime_YmdH t ++ suffix)%string (filename t directory suffix))
       rows.
Proof.
  intros Hrt Hfilter Hdir Hin.
  exists (listdir_rows strptime directory only names). split.
  - unfold listdir, bind, get_fs. rewrite Hdir. reflexivity.
  - apply listdir_rows_In. exists (strftime_YmdH t ++ suffix)%string.
    split; [ exact Hin | ]. apply listdir_step_Some.
    pose proof (strftime_length t) as Hl.
    split; [ rewrite str_length_app; lia | ].
    assert (Htake : py.take 10 (strftime_YmdH t ++ suffix)%string = strftime_YmdH t)
      by (rewrite <- Hl; apply take_app).
    assert (Hdrop : py.drop 10 (strftime_YmdH t ++ suffix)%string = suffix)
      by (rewrite <- Hl; apply drop_app).
    exists t. rewrite Htake, Hdrop.
    split; [ exact Hrt | ]. split; [ reflexivity | exact Hfilter ].
Qed.

(** [listdir] inverts [filename]: a listed file whose name is the base
    name [filename] builds for [(t, suffix)] is yielded as the row
    [(t, suffix, name, filename(t, directory, suffix))], provided
    [strptime] reads back what [strftime] wrote and the suffix passes the
    filter. *)
Theorem listdir_inverts_filename (strptime : string -> option datetime)
    (t : datetime) (directory suffix : string) (only : option (list string))
    (w : World) (names : list string) :
  strptime (strftime_YmdH t) = Some t ->
  (suffices_truthy only = true -> suffix_in suffix only = true) ->
  fs_listdir (w_fs w) directory = Some names ->
  In (strftime_YmdH t ++ suffix)%string names ->
  exists rows,
    listdir strptime directory only w = (inr rows, w) /\
    In (mk_row t suffix (strftime_YmdH t ++ suffix)%string (filename t directory suffix))
       rows.
Proof. apply listdir_finds_filename. Qed.

(** With a non-empty collection the scan is the unfiltered scan with the
    rows of other suffixes removed, in the same order. *)
Theorem listdir_filter_is_filter (strptime : string -> option datetime)
    (directory : string) (s : string) (l : list string) (names : list string) :
  listdir_rows strptime directory (Some (s :: l)) names =
  filter (fun r => suffix_in (row_suffix r) (Some (s :: l)))
         (listdir_rows strptime directory None names).
Proof.
  induction names as [ | n names IH]; [ reflexivity | ].
  cbn [listdir_rows]. unfold listdir_step.
  destruct (String.length n <? 10)%nat; [ exact IH | ].
  destruct (strptime (py.take 10 n)) as [t | ]; [ | exact IH ].
  cbn [suffices_truthy andb negb filter row_suffix].
  destruct (suffix_in (py.drop 10 n) (Some (s :: l))); cbn [negb]; rewrite IH; reflexivity.
Qed.

(** Every row names a listed file once, in listing order, and its file
    name is its ten-character time followed by its suffix. *)
Theorem listdir_rows_follow_listing (strptime : string -> option datetime)
    (directory : string) (only : option (list string)) (names : list string) :
  map row_filename (listdir_rows strptime directory only names) =
  filter (fun n => match listdir_step strptime directory only n with
                   | Some _ => true | None => false end) names /\
  forall r, In r (listdir_rows strptime directory only names) ->
    (py.take 10 (row_filename r) ++ row_suffix r)%string = row_filename r /\
    row_path r = py.path_join directory (row_filename r) /\
    strptime (py.take 10 (row_filename r)) = Some (row_ds_time r).
Proof.
  split.
  - induction names as [ | n names IH]; [ reflexivity | ].
    cbn [listdir_rows filter].
    destruct (listdir_step strptime directory only n) as [r | ] eqn:E.
    + cbn [map]. rewrite IH. f_equal.
      apply listdir_step_Some in E. destruct E as (_ & t & _ & -> & _). reflexivity.
    + exact IH.
  - intros r Hr. apply listdir_rows_In in Hr. destruct Hr as (n & _ & Hs).
    apply listdir_step_Some in Hs. destruct Hs as (Hl & t & Ht & -> & _).
    cbn [row_filename row_suffix row_path row_ds_time].
    split; [ apply take_drop; exact Hl | ]. split; [ reflexivity | exact Ht ].
Qed.

(** *** Creating, then using, a dataset *)

Lemma str_app_nil (s : string) : (s ++ "")%string = s.
Proof. induction s as [ | c s IH]; cbn; [ reflexivity | rewrite IH; reflexivity ]. Qed.

Lemma add_name_In (name : string) (l : list string) : In name (add_name name l).
Proof.
  unfold add_name. destruct (existsb (String.eqb name) l) eqn:E.
  - apply existsb_exists in E. destruct E as (x & Hx & Ex).
    apply String.eqb_eq in Ex. subst x. exact Hx.
  - apply in_or_app. right. left. reflexivity.
Qed.




(** A dataset created with [new = True] is found by the scan for
    empty-suffix names, under its time and path, when [strptime] reads
    back what [strftime] wrote. *)
Theorem create_then_listdir (strptime : string -> option datetime) (t : datetime)
    (dir : string) (determineTime : bool) (w : World) (names : list string) :
  strptime (strftime_YmdH t) = Some t ->
  fs_listdir (w_fs w) dir = Some names ->
  0 < size (w_cls w) ->
  exists d w1 rows,
    __init__ t dir true determineTime w = (inr d, w1) /\
    listdir strptime dir (Some [""%string]) w1 = (inr rows, w1) /\
    In (mk_row t "" (strftime_YmdH t) (fn d)) rows.
Proof.
  intros Hrt Hdir Hpos.
  pose proof (init_new_run t dir determineTime w names Hdir Hpos) as H1. cbv zeta in H1.
  match type of H1 with _ = (_, ?x) => set (w1 := x) in * end.
  assert (Hdir1 : fs_listdir (w_fs w1) dir =
                  Some (add_name (strftime_YmdH t) (add_name (strftime_YmdH t) names))).
  { unfold w1, fs_set. cbn [w_fs fs_listdir]. rewrite String.eqb_refl, Hdir. reflexivity. }
  destruct (listdir_finds_filename strptime t dir "" (Some [""%string]) w1 _
              Hrt (fun _ => eq_refl) Hdir1) as (rows & Hl & Hin).
  { rewrite str_app_nil. apply add_name_In. }
  rewrite str_app_nil in Hin.
  eexists _, w1, rows. split; [ exact H1 | ]. split; [ exact Hl | exact Hin ].
Qed.

(** *** Edge cases of [__init__] and [setup] *)

(** Creating a dataset overwrites: whatever was at the path, the file has
    [size] bytes afterwards and no other file changes.  When the class
    size is not positive the seek fails, and the file is left truncated to
    zero bytes. *)
Theorem create_overwrites (t : datetime) (dir : string) (determineTime : bool)
    (w : World) (names : list string) :
  fs_listdir (w_fs w) dir = Some names ->
  let fn := filename t dir "" in
  let r := fst (__init__ t dir true determineTime w) in
  let w' := snd (__init__ t dir true determineTime w) in
  (forall p, p <> fn -> fs_size (w_fs w') p = fs_size (w_fs w) p) /\
  w_cls w' = w_cls w /\
  (0 < size (w_cls w) ->
     (exists d, r = inr d) /\ fs_size (w_fs w') fn = Some (size (w_cls w))) /\
  (size (w_cls w) <= 0 ->
     r = inl (OSError_seek (size (w_cls w) - 1)) /\
     fs_size (w_fs w') fn = Some 0 /\
     w_trace w' = [EvClose fn; EvOpen fn true] ++ w_trace w).
Proof.
  intros Hdir. cbv zeta.
  destruct w as [c f a nx tr]. cbn [w_cls w_fs w_trace] in *.
  run_M. rewrite Hdir. run_M.
  assert (Hframe : forall (p : string) (z : Z) (g : string -> option Z),
             p <> filename t dir "" ->
             (if String.eqb p (filename t dir "") then Some z else g p) = g p).
  { intros p z g Hp. apply String.eqb_neq in Hp. rewrite Hp. reflexivity. }
  destruct (size c - 1 <? 0) eqn:E; run_M;
    [ | destruct (size c =? 0) eqn:E0; [ apply Z.ltb_ge in E; apply Z.eqb_eq in E0; lia | ] ];
    cbn [fst snd w_fs w_cls w_trace fs_set fs_size].
  - apply Z.ltb_lt in E.
    split; [ intros p Hp; apply Hframe, Hp | ].
    split; [ reflexivity | ].
    split; [ intros; lia | intros _ ].
    rewrite String.eqb_refl. repeat split.
  - apply Z.ltb_ge in E.
    split; [ intros p Hp; rewrite !Hframe by exact Hp; reflexivity | ].
    split; [ reflexivity | ].
    split; [ intros _ | intros; lia ].
    rewrite String.eqb_refl. split; [ eauto | f_equal; lia ].
Qed.

(** Opening a file that does not exist raises before anything is derived:
    the class, the files and the cache are as before, with or without
    [determineTime]. *)
Theorem open_missing_file (t : datetime) (dir : string) (determineTime : bool) (w : World) :
  fs_size (w_fs w) (filename t dir "") = None ->
  __init__ t dir false determineTime w =
  (inl (FileNotFoundError (filename t dir "")),
   mk_world (w_cls w) (w_fs w) (w_alarm w) (S (w_next w)) (w_trace w)).
Proof.
  intros H. destruct w as [c f a nx tr]. cbn [w_fs] in H.
  run_M. rewrite H. reflexivity.
Qed.

(** *** Files shorter than one hour step *)

Lemma fl_near_pos (x : Q) :
  (1 # 1073741824 <= x)%Q ->
  (x * (1 - py.half_ulp) <= py.fl x <= x * (1 + py.half_ulp))%Q.
Proof.
  intros H. apply FloatFacts.fl_error_pos.
  apply Qle_trans with (2 := H). vm_compute. discriminate.
Qed.

Lemma fl_near_neg (x : Q) :
  (x <= - (1 # 1073741824))%Q ->
  (x * (1 + py.half_ulp) <= py.fl x <= x * (1 - py.half_ulp))%Q.
Proof.
  intros H. apply FloatFacts.fl_error_neg.
  apply Qle_trans with (1 := H). vm_compute. discriminate.
Qed.

Lemma fl_div_near (x : Q) (d : Z) (lo : Q) :
  (lo <= x)%Q -> 0 < d -> (1 # 1073741824 <= lo / inject_Z d)%Q ->
  (x / inject_Z d * (1 - py.half_ulp) <= py.fl (x / inject_Z d)
   <= x / inject_Z d * (1 + py.half_ulp))%Q.
Proof.
  intros Hlo Hd Hb. apply fl_near_pos.
  apply Qle_trans with (1 := Hb).
  assert (0 < inject_Z d)%Q by (change 0%Q with (inject_Z 0); rewrite <- Zlt_Qlt; exact Hd).
  unfold Qdiv. apply Qmult_le_compat_r; [ exact Hlo | ].
  apply Qlt_le_weak, Qinv_lt_0_compat. assumption.
Qed.

(** For a file shorter than one hour step the float horizon is above -3
    and at most 0. *)
Lemma short_file_hours (sz : Z) :
  0 < sz < step_bytes -> (- (3) < derived_hours sz <= 0)%Q.
Proof.
  intros [H0 H1]. unfold derived_hours, hour_steps.
  assert (Hs : (1 <= inject_Z sz <= 146594879)%Q).
  { change 1%Q with (inject_Z 1). change 146594879%Q with (inject_Z 146594879).
    rewrite <- !Zle_Qle. unfold step_bytes in H1. lia. }
  set (s := inject_Z sz) in *.
  assert (B1 : (s * (1 # 4) * (1 - py.half_ulp) <= py.fl (s / inject_Z 4)
                <= s * (1 # 4) * (1 + py.half_ulp))%Q).
  { apply (fl_div_near s 4 1 (proj1 Hs)); [ lia | vm_compute; discriminate ]. }
  set (t1 := py.fl (s / inject_Z 4)) in *.
  assert (L1 : (1 # 8 <= t1)%Q) by (unfold py.half_ulp in B1; lra).
  assert (B2 : (t1 * (1 # 47) * (1 - py.half_ulp) <= py.fl (t1 / inject_Z 47)
                <= t1 * (1 # 47) * (1 + py.half_ulp))%Q).
  { apply (fl_div_near t1 47 _ L1); [ lia | vm_compute; discriminate ]. }
  set (t2 := py.fl (t1 / inject_Z 47)) in *.
  assert (L2 : (1 # 512 <= t2)%Q) by (unfold py.half_ulp in B2; lra).
  assert (B3 : (t2 * (1 # 3) * (1 - py.half_ulp) <= py.fl (t2 / inject_Z 3)
                <= t2 * (1 # 3) * (1 + py.half_ulp))%Q).
  { apply (fl_div_near t2 3 _ L2); [ lia | vm_compute; discriminate ]. }
  set (t3 := py.fl (t2 / inject_Z 3)) in *.
  assert (L3 : (1 # 2048 <= t3)%Q) by (unfold py.half_ulp in B3; lra).
  assert (B4 : (t3 * (1 # 361) * (1 - py.half_ulp) <= py.fl (t3 / inject_Z 361)
                <= t3 * (1 # 361) * (1 + py.half_ulp))%Q).
  { apply (fl_div_near t3 361 _ L3); [ lia | vm_compute; discriminate ]. }
  set (t4 := py.fl (t3 / inject_Z 361)) in *.
  assert (L4 : (1 # 1048576 <= t4)%Q) by (unfold py.half_ulp in B4; lra).
  assert (B5 : (t4 * (1 # 720) * (1 - py.half_ulp) <= py.fl (t4 / inject_Z 720)
                <= t4 * (1 # 720) * (1 + py.half_ulp))%Q).
  { apply (fl_div_near t4 720 _ L4); [ lia | vm_compute; discriminate ]. }
  set (time := py.fl (t4 / inject_Z 720)) in *.
  unfold py.half_ulp in *.
  assert (Ht : (1 # 1073741824 <= time <= 1 - (1 # 1073741824))%Q) by lra.
  pose proof (fl_near_neg (time - 1) ltac:(lra)) as B6. unfold py.half_ulp in B6.
  set (d := py.fl (time - 1)) in *.
  pose proof (fl_near_neg (d * 3) ltac:(lra)) as B7. unfold py.half_ulp in B7.
  set (h := py.fl (d * 3)) in *.
  lra.
Qed.

Lemma int_neg_bounds (h : Q) (a : Z) :
  (inject_Z a < h)%Q -> (h <= 0)%Q -> a < py.int h <= 0.
Proof.
  destruct h as [n d]. unfold py.int, Qlt, Qle. cbn [Qnum Qden inject_Z].
  intros Ha Hn.
  assert (Hn0 : n <= 0) by lia.
  replace n with (- (- n)) by lia.
  rewrite Z.quot_opp_l by discriminate.
  rewrite Z.quot_div_nonneg by lia.
  assert (0 <= - n / Zpos d) by (apply Z.div_pos; lia).
  assert (- n / Zpos d < - a) by (apply Z.div_lt_upper_bound; lia).
  lia.
Qed.

Lemma empty_file_hours : py.int (derived_hours 0) = -3.
Proof. vm_compute. reflexivity. Qed.

(** With [determineTime], a file shorter than one hour step is rejected as
    a one-step dataset (horizon 0); an empty file is not rejected by the
    size check: it is taken as a dataset without hours, for which
    [forecast_hours()] is [-3]. *)
Theorem open_short_file (t : datetime) (dir : string) (w : World) (sz : Z) :
  shape_fixed (w_cls w) ->
  fs_size (w_fs w) (filename t dir "") = Some sz ->
  0 <= sz < step_bytes ->
  let r := fst (__init__ t dir false true w) in
  let w' := snd (__init__ t dir false true w) in
  (0 < sz ->
     r = inl (ValueError_size step_bytes sz) /\
     forecast_range (w_cls w') = [0] /\ fst (forecast_hours w') = inr 0) /\
  (sz = 0 ->
     (forall expected actual, r <> inl (ValueError_size expected actual)) /\
     forecast_range (w_cls w') = [] /\ shape (w_cls w') = (0, 47, 3, 361, 720) /\
     fst (forecast_hours w') = inr (-3)).
Proof.
  intros Hinv Hsz Hb. cbv zeta.
  assert (Hok : file_size_ok sz).
  { split; [ lia | ]. apply Z.lt_trans with (1 := proj2 Hb). reflexivity. }
  pose proof (no_overflow_flag true sz Hok) as Hov.
  rewrite (init_existing_result t dir true w _ Hinv Hsz Hov). cbv zeta.
  rewrite forecast_hours_run. cbn [fst].
  rewrite (init_existing_cls t dir true w _ Hinv Hsz Hov).
  unfold class_after_open, layout_of. cbn [size forecast_range shape].
  split.
  - intros Hpos.
    destruct (short_file_hours sz (conj Hpos (proj2 Hb))) as [Hlo Hhi].
    pose proof (int_neg_bounds (derived_hours sz) (-3) Hlo Hhi) as Hq.
    set (q := py.int (derived_hours sz)) in *.
    assert (Hr : py.range 0 (q + 3) 3 = [0]).
    { assert (Hc : q = -2 \/ q = -1 \/ q = 0) by lia.
      destruct Hc as [-> | [-> | ->]]; reflexivity. }
    rewrite Hr. change (size_of (make_shape [0])) with step_bytes.
    destruct (sz =? step_bytes) eqn:E; [ apply Z.eqb_eq in E; lia | ].
    repeat split.
  - intros ->. rewrite empty_file_hours. repeat split.
    intros expected actual. discriminate.
Qed.

(** After [setup(h)] for an integer [h > -3] the horizon that
    [forecast_hours()] reports is the least multiple of 3 not below [h];
    for [h <= -3] the hour range is empty and the report is [-3]. *)
Theorem setup_rounds_horizon_up (h : Z) (w : World) :
  let w' := snd (setup (inject_Z h) w) in
  (-3 < h ->
     exists fh, fst (forecast_hours w') = inr fh /\
                fh mod 3 = 0 /\ h <= fh < h + 3 /\ 0 <= fh) /\
  (h <= -3 ->
     fst (forecast_hours w') = inr (-3) /\ forecast_range (w_cls w') = []).
Proof.
  cbv zeta. rewrite setup_run, int_inject_Z. cbn [snd]. rewrite forecast_hours_run.
  unfold with_cls, layout_of, make_shape. cbn [fst w_cls shape shape0 forecast_range].
  rewrite range_length. unfold py.range, py.range_len. change (0 <? 3) with true.
  split.
  - intros Hh. destruct (0 <? h + 3) eqn:E; [ | apply Z.ltb_ge in E; lia ].
    cbv [andb]. eexists. split; [ reflexivity | ].
    replace (h + 3 - 1 - 0) with (h + 2) by lia.
    replace ((1 + (h + 2) / 3 - 1) * 3) with (3 * ((h + 2) / 3)) by lia.
    pose proof (Z.div_mod (h + 2) 3 ltac:(lia)) as Hd.
    pose proof (Z.mod_pos_bound (h + 2) 3 ltac:(lia)) as Hm.
    split; [ rewrite Z.mul_comm; apply Z.mod_mul; lia | ].
    assert (0 <= (h + 2) / 3) by (apply Z.div_pos; lia).
    lia.
  - intros Hh. destruct (0 <? h + 3) eqn:E; [ apply Z.ltb_lt in E; lia | ].
    cbv [andb]. split; reflexivity.
Qed.

Lemma hour_axis_members (w : World) (h : Z) :
  layout_wf (w_cls w) ->
  exists fh, fst (forecast_hours w) = inr fh /\
    (In h (ax_hour (axes (w_cls w))) <-> 0 <= h <= fh /\ h mod 3 = 0).
Proof.
  intros [hi E]. rewrite forecast_hours_run. eexists. split; [ reflexivity | ].
  rewrite E. cbn [axes shape layout_of make_axes make_shape ax_hour shape0].
  rewrite range_length. unfold py.range.
  pose proof (range_len_nonneg 0 hi 3) as Hn.
  set (n := py.range_len 0 hi 3) in *.
  rewrite in_map_iff. split.
  - intros (i & <- & Hi). apply in_seq in Hi.
    split; [ lia | ]. rewrite Z.add_0_l, Z.mul_comm. apply Z.mod_mul. lia.
  - intros (Hb & Hm). exists (Z.to_nat (h / 3)).
    pose proof (Z.div_mod h 3 ltac:(lia)) as Hd. rewrite Hm in Hd.
    assert (0 <= h / 3) by (apply Z.div_pos; lia).
    split; [ rewrite Z2Nat.id by lia; lia | ].
    apply in_seq. lia.
Qed.

(** In a reachable layout the hour axis consists of the multiples of 3 from
    0 up to [forecast_hours()]. *)
Theorem hour_axis_by_forecast_hours (w : World) (h : Z) :
  layout_wf (w_cls w) ->
  exists fh, fst (forecast_hours w) = inr fh /\
    (In h (ax_hour (axes (w_cls w))) <-> 0 <= h <= fh /\ h mod 3 = 0).
Proof. apply hour_axis_members. Qed.

(** *** The worked directory, continued *)

Lemma demo_after_open_cached_wf :
  cached_wf (snd (open_latest strptime_YmdH DEFAULT_DIRECTORY true true (boot demo_fs))).
Proof.
  intros d H. vm_compute in H. injection H as <-.
  split; [ vm_compute; repeat constructor | split; reflexivity ].
Qed.

Lemma reachable_state_inv_witness :
  reachable strptime_YmdH
    (snd (open_latest strptime_YmdH DEFAULT_DIRECTORY true true (boot demo_fs))) /\
  shape_fixed
    (w_cls (snd (open_latest strptime_YmdH DEFAULT_DIRECTORY true true (boot demo_fs)))).
Proof.
  assert (H : reachable strptime_YmdH
                (snd (open_latest strptime_YmdH DEFAULT_DIRECTORY true true (boot demo_fs)))).
  { eapply reach_step; [ apply reach_boot | apply step_open_latest ]. }
  split; [ exact H | ].
  exact (proj1 (proj2 (proj2 (reachable_state_inv strptime_YmdH _ H)))).
Defined.

Lemma expiry_then_open_latest_is_fresh_witness :
  let w := snd (open_latest strptime_YmdH DEFAULT_DIRECTORY true true (boot demo_fs)) in
  cached_wf w /\
  exists d w',
    open_latest strptime_YmdH DEFAULT_DIRECTORY true true (deliver_SIGALRM w) = (inr d, w') /\
    oid d = w_next w /\ w_alarm w' = Some 60.
Proof.
  cbv zeta. split; [ exact demo_after_open_cached_wf | ].
  destruct (open_latest strptime_YmdH DEFAULT_DIRECTORY true true
              (deliver_SIGALRM
                 (snd (open_latest strptime_YmdH DEFAULT_DIRECTORY true true (boot demo_fs)))))
    as [[e | d] w'] eqn:E; [ vm_compute in E; discriminate | ].
  exists d, w'. split; [ reflexivity | ].
  destruct (expiry_then_open_latest_is_fresh strptime_YmdH DEFAULT_DIRECTORY true _ w' d
              demo_after_open_cached_wf E) as (H1 & _ & _ & H2 & _).
  split; [ exact H1 | exact H2 ].
Defined.

Lemma open_latest_cache_frame_witness :
  (false = false \/
   exists e, fst (open_latest strptime_YmdH DEFAULT_DIRECTORY false true (boot demo_fs)) = inl e) /\
  cached_latest
    (w_cls (snd (open_latest strptime_YmdH DEFAULT_DIRECTORY false true (boot demo_fs)))) = None.
Proof.
  assert (H : false = false \/
              exists e, fst (open_latest strptime_YmdH DEFAULT_DIRECTORY false true
                               (boot demo_fs)) = inl e) by (left; reflexivity).
  split; [ exact H | ].
  exact (proj1 (open_latest_cache_frame strptime_YmdH DEFAULT_DIRECTORY false true
                  (boot demo_fs) H)).
Defined.

Lemma listdir_inverts_filename_witness :
  strptime_YmdH (strftime_YmdH (mk_datetime 2014 2 1 3)) = Some (mk_datetime 2014 2 1 3) /\
  fs_listdir (w_fs (boot demo_fs)) DEFAULT_DIRECTORY = Some demo_names /\
  In (strftime_YmdH (mk_datetime 2014 2 1 3) ++ "")%string demo_names /\
  exists rows,
    listdir strptime_YmdH DEFAULT_DIRECTORY None (boot demo_fs) = (inr rows, boot demo_fs) /\
    In (mk_row (mk_datetime 2014 2 1 3) ""
               (strftime_YmdH (mk_datetime 2014 2 1 3) ++ "")%string
               (filename (mk_datetime 2014 2 1 3) DEFAULT_DIRECTORY "")) rows.
Proof.
  assert (H1 : strptime_YmdH (strftime_YmdH (mk_datetime 2014 2 1 3))
               = Some (mk_datetime 2014 2 1 3)) by reflexivity.
  assert (H2 : fs_listdir (w_fs (boot demo_fs)) DEFAULT_DIRECTORY = Some demo_names)
    by reflexivity.
  assert (H3 : In (strftime_YmdH (mk_datetime 2014 2 1 3) ++ "")%string demo_names)
    by (right; left; reflexivity).
  split; [ exact H1 | ]. split; [ exact H2 | ]. split; [ exact H3 | ].
  apply (listdir_inverts_filename strptime_YmdH (mk_datetime 2014 2 1 3)
           DEFAULT_DIRECTORY "" None (boot demo_fs) demo_names H1).
  - discriminate.
  - exact H2.
  - exact H3.
Defined.


Lemma create_then_listdir_witness :
  strptime_YmdH (strftime_YmdH (mk_datetime 2014 2 1 6)) = Some (mk_datetime 2014 2 1 6) /\
  fs_listdir (w_fs (boot demo_fs)) DEFAULT_DIRECTORY = Some demo_names /\
  0 < size (w_cls (boot demo_fs)) /\
  exists d w1 rows,
    __init__ (mk_datetime 2014 2 1 6) DEFAULT_DIRECTORY true true (boot demo_fs) = (inr d, w1) /\
    listdir strptime_YmdH DEFAULT_DIRECTORY (Some [""%string]) w1 = (inr rows, w1) /\
    In (mk_row (mk_datetime 2014 2 1 6) "" (strftime_YmdH (mk_datetime 2014 2 1 6)) (fn d)) rows.
Proof.
  assert (H1 : strptime_YmdH (strftime_YmdH (mk_datetime 2014 2 1 6))
               = Some (mk_datetime 2014 2 1 6)) by reflexivity.
  assert (H2 : fs_listdir (w_fs (boot demo_fs)) DEFAULT_DIRECTORY = Some demo_names)
    by reflexivity.
  assert (H3 : 0 < size (w_cls (boot demo_fs))) by reflexivity.
  split; [ exact H1 | ]. split; [ exact H2 | ]. split; [ exact H3 | ].
  exact (create_then_listdir strptime_YmdH (mk_datetime 2014 2 1 6) DEFAULT_DIRECTORY true
           (boot demo_fs) demo_names H1 H2 H3).
Defined.

Lemma create_overwrites_witness :
  fs_listdir (w_fs (boot demo_fs)) DEFAULT_DIRECTORY = Some demo_names /\
  fs_size (w_fs (snd (__init__ (mk_datetime 2014 1 31 18) DEFAULT_DIRECTORY true true
                               (boot demo_fs))))
          "/srv/tawhiri-datasets/2014020103"
  = fs_size (w_fs (boot demo_fs)) "/srv/tawhiri-datasets/2014020103".
Proof.
  assert (H : fs_listdir (w_fs (boot demo_fs)) DEFAULT_DIRECTORY = Some demo_names)
    by reflexivity.
  split; [ exact H | ].
  apply (proj1 (create_overwrites (mk_datetime 2014 1 31 18) DEFAULT_DIRECTORY true
                  (boot demo_fs) demo_names H)).
  vm_compute. discriminate.
Defined.

Lemma open_missing_file_witness :
  fs_size (w_fs (boot demo_fs)) (filename (mk_datetime 2014 2 1 6) DEFAULT_DIRECTORY "") = None /\
  fst (__init__ (mk_datetime 2014 2 1 6) DEFAULT_DIRECTORY false true (boot demo_fs)) =
  inl (FileNotFoundError "/srv/tawhiri-datasets/2014020106").
Proof.
  assert (H : fs_size (w_fs (boot demo_fs))
                (filename (mk_datetime 2014 2 1 6) DEFAULT_DIRECTORY "") = None)
    by reflexivity.
  split; [ exact H | ].
  rewrite (open_missing_file (mk_datetime 2014 2 1 6) DEFAULT_DIRECTORY true (boot demo_fs) H).
  reflexivity.
Defined.

Lemma open_short_file_witness :
  shape_fixed (w_cls (boot demo_fs)) /\
  fs_size (w_fs (boot demo_fs)) (filename (mk_datetime 2014 1 31 18) DEFAULT_DIRECTORY "")
    = Some 1000 /\
  0 <= 1000 < step_bytes /\
  fst (__init__ (mk_datetime 2014 1 31 18) DEFAULT_DIRECTORY false true (boot demo_fs)) =
  inl (ValueError_size step_bytes 1000).
Proof.
  assert (H1 : shape_fixed (w_cls (boot demo_fs))) by (exists 65; reflexivity).
  assert (H2 : fs_size (w_fs (boot demo_fs))
                 (filename (mk_datetime 2014 1 31 18) DEFAULT_DIRECTORY "") = Some 1000)
    by reflexivity.
  assert (H3 : 0 <= 1000 < step_bytes) by (unfold step_bytes; lia).
  split; [ exact H1 | ]. split; [ exact H2 | ]. split; [ exact H3 | ].
  apply (proj1 (open_short_file (mk_datetime 2014 1 31 18) DEFAULT_DIRECTORY
                  (boot demo_fs) 1000 H1 H2 H3)).
  lia.
Defined.

Lemma hour_axis_by_forecast_hours_witness :
  layout_wf (w_cls (boot demo_fs)) /\
  exists fh, fst (forecast_hours (boot demo_fs)) = inr fh /\
    (In 96 (ax_hour (axes (w_cls (boot demo_fs)))) <-> 0 <= 96 <= fh /\ 96 mod 3 = 0).
Proof.
  assert (H1 : layout_wf (w_cls (boot demo_fs))) by (exists (192 + 3); reflexivity).
  split; [ exact H1 | ].
  exact (hour_axis_by_forecast_hours (boot demo_fs) 96 H1).
Defined.



End DatasetFacts.

(** ** Properties of [tawhiri/models.py] *)

Module ModelsFacts.

Import models.
Local Open Scope Q_scope.

(** *** Sum of models *)

Lemma Qplus_0_l_eq (x : Q) : 0 + x = x.
Proof.
  destruct x as [n d]. unfold Qplus. cbn [Qnum Qden].
  rewrite Z.mul_0_l, Z.add_0_l, Z.mul_1_r, Pos.mul_1_l. reflexivity.
Qed.

Lemma vadd_0_l (v : Vec3) : vadd (0, 0, 0) v = v.
Proof.
  destruct v as [[a b] c]. unfold vadd. rewrite !Qplus_0_l_eq. reflexivity.
Qed.

(** The loop adds the outputs to the accumulator from left to right and
    leaves [descend_mark] as the calls leave it. *)
Lemma linear_loop_outputs (models : list Model) (t lat lng alt : Q) (acc : Vec3) (mark : Q) :
  linear_loop models t lat lng alt acc mark =
  (fold_left vadd (fst (outputs models t lat lng alt mark)) acc,
   snd (outputs models t lat lng alt mark)).
Proof.
  revert acc mark. induction models as [ | m models IH]; intros acc mark.
  - reflexivity.
  - cbn [linear_loop outputs]. unfold bind, ret.
    destruct (m t lat lng alt mark) as [d mark1].
    rewrite IH.
    destruct (outputs models t lat lng alt mark1) as [ds mark2]. reflexivity.
Qed.

Lemma outputs_pure (fs : list (Q -> Q -> Q -> Q -> Vec3)) (t lat lng alt mark : Q) :
  outputs (map pure fs) t lat lng alt mark =
  (map (fun f => f t lat lng alt) fs, mark).
Proof.
  induction fs as [ | f fs IH]; [ reflexivity | ].
  cbn [map outputs]. unfold bind at 1. unfold pure at 1. unfold ret at 1.
  unfold bind. rewrite IH. reflexivity.
Qed.

(** C8: [make_linear_model(models)] calls every model with the same
    [(t, lat, lng, alt)] and returns the component-wise sum of their
    outputs; for the empty list that is [(0, 0, 0)], and for [[a, b]] it is
    the output of [a] plus the output of [b]. *)
Theorem linear_model_sums_outputs :
  (forall (models : list Model) (t lat lng alt mark : Q),
      make_linear_model models t lat lng alt mark =
      (fold_left vadd (fst (outputs models t lat lng alt mark)) (0, 0, 0),
       snd (outputs models t lat lng alt mark))) /\
  (forall (fs : list (Q -> Q -> Q -> Q -> Vec3)) (t lat lng alt mark : Q),
      make_linear_model (map pure fs) t lat lng alt mark =
      (fold_left vadd (map (fun f => f t lat lng alt) fs) (0, 0, 0), mark)) /\
  (forall t lat lng alt mark : Q,
      make_linear_model [] t lat lng alt mark = ((0, 0, 0), mark)) /\
  (forall (a b : Model) (t lat lng alt mark : Q),
      let '(da, mark1) := a t lat lng alt mark in
      let '(db, mark2) := b t lat lng alt mark1 in
      make_linear_model [a; b] t lat lng alt mark = (vadd da db, mark2)) /\
  (forall (a b : Q -> Q -> Q -> Q -> Vec3) (t lat lng alt mark : Q),
      fst (make_linear_model [pure a; pure b] t lat lng alt mark) =
      (fst (fst (a t lat lng alt)) + fst (fst (b t lat lng alt)),
       snd (fst (a t lat lng alt)) + snd (fst (b t lat lng alt)),
       snd (a t lat lng alt) + snd (b t lat lng alt))).
Proof.
  split; [ | split; [ | split; [ | split ] ] ].
  - intros. apply linear_loop_outputs.
  - intros. unfold make_linear_model.
    rewrite linear_loop_outputs, outputs_pure. reflexivity.
  - reflexivity.
  - intros a b t lat lng alt mark.
    unfold make_linear_model. cbn [linear_loop]. unfold bind, ret.
    destruct (a t lat lng alt mark) as [da mark1].
    destruct (b t lat lng alt mark1) as [db mark2].
    rewrite vadd_0_l. reflexivity.
  - intros a b t lat lng alt mark.
    unfold make_linear_model, pure. cbn [linear_loop]. unfold bind, ret. cbn [fst].
    rewrite vadd_0_l.
    destruct (a t lat lng alt) as [[a0 a1] a2], (b t lat lng alt) as [[b0 b1] b2].
    reflexivity.
Qed.

(** *** Any-of terminator *)

Lemma any_true_iff {A : Type} (f : A -> value) (l : list A) :
  any f l = true <-> exists x, In x l /\ truthy (f x) = true.
Proof.
  induction l as [ | x l IH]; cbn [any].
  - split; [ discriminate | intros (x & [] & _) ].
  - destruct (truthy (f x)) eqn:E.
    + split; [ intros _; exists x; split; [ left; reflexivity | exact E ] | reflexivity ].
    + rewrite IH. split.
      * intros (y & Hy & Ht). exists y. split; [ right; exact Hy | exact Ht ].
      * intros (y & [<- | Hy] & Ht); [ congruence | eauto ].
Qed.

(** C9: [make_any_terminator([])] is false at every state; for a single
    criterion [p] it has the truth value of [p] at every state (the value
    of [p] itself where that is [True] or [False], and [False] where [p]
    returns [None]); in general it is true exactly when some criterion of
    the list is true. *)
Theorem any_terminator_rules :
  (forall t lat lng alt : Q, make_any_terminator [] t lat lng alt = false) /\
  (forall (p : Terminator) (t lat lng alt : Q),
      make_any_terminator [p] t lat lng alt = truthy (p t lat lng alt)) /\
  (forall (p : Terminator) (t lat lng alt : Q),
      of_bool (make_any_terminator [p] t lat lng alt) =
      match p t lat lng alt with VNone => VFalse | v => v end) /\
  (forall (terminators : list Terminator) (t lat lng alt : Q),
      make_any_terminator terminators t lat lng alt = true <->
      exists p, In p terminators /\ truthy (p t lat lng alt) = true).
Proof.
  split; [ reflexivity | ].
  split; [ intros; unfold make_any_terminator; cbn [any];
           destruct (truthy _); reflexivity | ].
  split.
  - intros. unfold make_any_terminator. cbn [any].
    destruct (p t lat lng alt); reflexivity.
  - intros. unfold make_any_terminator.
    apply (any_true_iff (fun term : Terminator => term t lat lng alt)).
Qed.

(** *** The descent mark *)

Section Scheduler.

Variable sunrise_timegm : Q -> Q -> Q -> option Z.
Variable sunset_timegm : Q -> Q -> Q -> option Z.

Lemma Qle_bool_neg (x : Q) : x < 0 -> Qle_bool 0 x = false.
Proof.
  intros Hx. destruct (Qle_bool 0 x) eqn:E; [ | reflexivity ].
  apply Qle_bool_iff in E. exfalso. exact (Qlt_not_le _ _ Hx E).
Qed.

(** Without a cutoff the result of a call does not depend on the mark. *)
Lemma unbounded_result_ignores_mark
    (ascent_rate float_alt descent_rate descent_before_sunset descent_duration : Q)
    (args : Q * Q * Q * Q) (mark mark' : Q) :
  descent_duration < 0 ->
  fst (call (make_ascent_descent sunrise_timegm sunset_timegm ascent_rate float_alt
              descent_rate descent_before_sunset descent_duration) args mark) =
  fst (call (make_ascent_descent sunrise_timegm sunset_timegm ascent_rate float_alt
              descent_rate descent_before_sunset descent_duration) args mark').
Proof.
  intros Hd. destruct args as [[[t lat] lng] alt].
  unfold call, make_ascent_descent.
  destruct (sunrise_timegm lat lng t) as [sunrise | ]; [ | reflexivity ].
  rewrite (Qle_bool_neg _ Hd). cbn [andb].
  match goal with |- context [if ?c then _ else if _ then _ else _] => destruct c end.
  - unfold bind, get_mark.
    destruct (py.Qltb mark 0), (py.Qltb mark' 0); reflexivity.
  - destruct (py.Qltb alt float_alt); reflexivity.
Qed.

(** A model whose results ignore the mark returns, in any interleaving
    with any other model, what it returns alone. *)
Lemma isolated_when_mark_ignored (m1 m2 : Model) :
  (forall args mark mark', fst (call m1 args mark) = fst (call m1 args mark')) ->
  forall calls mark mark',
    fst (first_results m1 m2 calls mark) = fst (run_alone m1 (first_calls calls) mark').
Proof.
  intros Hign calls.
  induction calls as [ | [[ | ] args] calls IH]; intros mark mark'.
  - reflexivity.
  - cbn [first_results first_calls run_alone]. unfold bind, ret.
    pose proof (Hign args mark mark') as E.
    destruct (call m1 args mark) as [d g1], (call m1 args mark') as [d' g1'].
    cbn [fst] in E. subst d'.
    specialize (IH g1 g1').
    destruct (first_results m1 m2 calls g1) as [ds g2],
             (run_alone m1 (first_calls calls) g1') as [ds' g2'].
    cbn [fst] in *. congruence.
  - cbn [first_results first_calls]. unfold bind.
    destruct (call m2 args mark) as [d g1]. apply IH.
Qed.

(** C5 (as amended): the descent mark is one variable shared by all
    scheduler models, and a model created with a negative
    [descent_duration] (no cutoff) never lets it reach its result: in every
    interleaving with the calls of another scheduler model it returns what
    it returns on its own calls alone. *)
Theorem unbounded_scheduler_isolated
    (ascent_rate1 float_alt1 descent_rate1 descent_before_sunset1 descent_duration1 : Q)
    (ascent_rate2 float_alt2 descent_rate2 descent_before_sunset2 descent_duration2 : Q)
    (calls : list Call) (mark : Q) :
  descent_duration1 < 0 ->
  let m1 := make_ascent_descent sunrise_timegm sunset_timegm ascent_rate1 float_alt1
              descent_rate1 descent_before_sunset1 descent_duration1 in
  let m2 := make_ascent_descent sunrise_timegm sunset_timegm ascent_rate2 float_alt2
              descent_rate2 descent_before_sunset2 descent_duration2 in
  fst (first_results m1 m2 calls mark) = fst (run_alone m1 (first_calls calls) mark).
Proof.
  intros Hd m1 m2. apply isolated_when_mark_ignored.
  intros args g g'. apply unbounded_result_ignores_mark. exact Hd.
Qed.

End Scheduler.

(** Alone, the first scheduler has used up its 100 seconds at the second
    call and holds; with the other scheduler called in between, the mark
    was reset and it descends again. *)
Lemma descend_mark_shared_counterexample :
  fst (run_alone demo_scheduler (first_calls demo_calls) descend_mark_init)
    = [(0, 0, - (5)); (0, 0, 0)] /\
  fst (first_results demo_scheduler demo_scheduler demo_calls descend_mark_init)
    = [(0, 0, - (5)); (0, 0, - (5))] /\
  fst (first_results demo_scheduler demo_scheduler demo_calls descend_mark_init)
    <> fst (run_alone demo_scheduler (first_calls demo_calls) descend_mark_init).
Proof.
  split; [ reflexivity | ]. split; [ reflexivity | ].
  vm_compute. discriminate.
Qed.

Lemma unbounded_scheduler_isolated_witness :
  - (1) < 0 /\
  fst (first_results
         (make_ascent_descent demo_sunrise demo_sunset 5 30000 5 0 (- (1)))
         demo_scheduler demo_calls descend_mark_init)
  = fst (run_alone
         (make_ascent_descent demo_sunrise demo_sunset 5 30000 5 0 (- (1)))
         (first_calls demo_calls) descend_mark_init).
Proof.
  split; [ reflexivity | ].
  apply (unbounded_scheduler_isolated demo_sunrise demo_sunset
           5 30000 5 0 (- (1)) 5 30000 5 0 100 demo_calls descend_mark_init).
  reflexivity.
Defined.

(** *** The scheduler over several calls *)

Section SchedulerRuns.

Variable sunrise_timegm : Q -> Q -> Q -> option Z.
Variable sunset_timegm : Q -> Q -> Q -> option Z.
Variables ascent_rate float_alt descent_rate descent_before_sunset descent_duration : Q.

Let up_down : Model :=
  make_ascent_descent sunrise_timegm sunset_timegm ascent_rate float_alt descent_rate
    descent_before_sunset descent_duration.

Let window := in_window sunrise_timegm sunset_timegm descent_before_sunset.

Lemma Qltb_ge (x y : Q) : y <= x -> py.Qltb x y = false.
Proof.
  intros H. unfold py.Qltb. apply Qle_bool_iff in H. rewrite H. reflexivity.
Qed.


(** One call, by where it falls. *)
Lemma up_down_no_sunrise (args : Q * Q * Q * Q) (mark : Q) :
  window args = None -> call up_down args mark = ((0, 0, 0), mark).
Proof.
  destruct args as [[[t lat] lng] alt].
  unfold window, in_window, call, up_down, make_ascent_descent.
  destruct (sunrise_timegm lat lng t); [ discriminate | reflexivity ].
Qed.

Lemma up_down_outside (args : Q * Q * Q * Q) (mark : Q) :
  window args = Some false ->
  call up_down args mark =
  ((0, 0, if py.Qltb (call_alt args) float_alt then ascent_rate else 0), - (1)).
Proof.
  destruct args as [[[t lat] lng] alt].
  unfold window, in_window, call, up_down, make_ascent_descent, call_alt. cbn [snd].
  destruct (sunrise_timegm lat lng t); [ | discriminate ].
  intros [= ->]. destruct (py.Qltb alt float_alt); reflexivity.
Qed.

Lemma up_down_inside (args : Q * Q * Q * Q) (mark : Q) :
  window args = Some true ->
  let entry := if py.Qltb mark 0 then call_time args else mark in
  call up_down args mark =
  ((0, 0, if Qle_bool 0 descent_duration && py.Qltb (entry + descent_duration) (call_time args)
          then 0 else - descent_rate), entry).
Proof.
  destruct args as [[[t lat] lng] alt].
  unfold window, in_window, call, up_down, make_ascent_descent, call_time. cbn [fst].
  destruct (sunrise_timegm lat lng t); [ | discriminate ].
  intros [= ->]. unfold bind, get_mark, set_mark, ret.
  destruct (py.Qltb mark 0);
    destruct (Qle_bool 0 descent_duration && py.Qltb _ t); reflexivity.
Qed.

(** Where the sun does not rise the scheduler holds and leaves the mark
    alone; where it rises but does not set the scheduler never descends:
    it climbs below the float altitude, holds at or above it, and resets
    the mark. *)
Theorem scheduler_polar_cases (t lat lng alt mark : Q) :
  (sunrise_timegm lat lng t = None ->
   up_down t lat lng alt mark = ((0, 0, 0), mark)) /\
  (forall sunrise,
     sunrise_timegm lat lng t = Some sunrise -> sunset_timegm lat lng t = None ->
     up_down t lat lng alt mark =
     ((0, 0, if py.Qltb alt float_alt then ascent_rate else 0), - (1))).
Proof.
  split.
  - intros H. apply (up_down_no_sunrise (t, lat, lng, alt)).
    unfold window, in_window. rewrite H. reflexivity.
  - intros sunrise Hr Hs. apply (up_down_outside (t, lat, lng, alt)).
    unfold window, in_window. rewrite Hr, Hs.
    destruct (py.Qltb 0 (inject_Z sunrise)); reflexivity.
Qed.

Let window_results := window_results descent_rate descent_duration.



(** A call outside the window (with a sunrise) resets the budget: the next
    call that falls inside the window descends, whatever the mark was
    before and whatever [descent_duration] is. *)
Theorem window_entry_after_reset_descends (args1 args2 : Q * Q * Q * Q) (mark : Q) :
  window args1 = Some false ->
  window args2 = Some true ->
  run_alone up_down [args1; args2] mark =
  ([(0, 0, if py.Qltb (call_alt args1) float_alt then ascent_rate else 0);
    (0, 0, - descent_rate)], call_time args2).
Proof.
  intros H1 H2. cbn [run_alone]. unfold bind, ret.
  rewrite (up_down_outside args1 mark H1).
  rewrite (up_down_inside args2 (- (1)) H2). cbv zeta.
  change (py.Qltb (- (1)) 0) with true. cbv iota.
  destruct (Qle_bool 0 descent_duration) eqn:Ed; cbn [andb]; [ | reflexivity ].
  rewrite (Qltb_ge (call_time args2 + descent_duration) (call_time args2));
    [ reflexivity | ].
  apply Qle_bool_iff in Ed.
  rewrite <- (Qplus_0_r (call_time args2)) at 1.
  apply Qplus_le_r. exact Ed.
Qed.

End SchedulerRuns.

(** *** Combining terminators *)

Lemma any_app {A : Type} (f : A -> value) (l1 l2 : list A) :
  any f (l1 ++ l2) = any f l1 || any f l2.
Proof.
  induction l1 as [ | x l1 IH]; cbn [any app]; [ reflexivity | ].
  destruct (truthy (f x)); [ reflexivity | exact IH ].
Qed.

(** Terminators compose: the any-terminator of a concatenation is the
    disjunction of the any-terminators of the parts, and an any-terminator
    used as one criterion of another can be replaced by its own
    criteria. *)
Theorem any_terminator_flattens (a b : list Terminator) (t lat lng alt : Q) :
  make_any_terminator (a ++ b) t lat lng alt =
    make_any_terminator a t lat lng alt || make_any_terminator b t lat lng alt /\
  make_any_terminator
    ((fun t lat lng alt => of_bool (make_any_terminator a t lat lng alt)) :: b)
    t lat lng alt
  = make_any_terminator (a ++ b) t lat lng alt.
Proof.
  unfold make_any_terminator. rewrite any_app. split; [ reflexivity | ].
  cbn [any]. destruct (any _ a); reflexivity.
Qed.


Lemma window_entry_after_reset_descends_witness :
  in_window demo_sunrise demo_sunset 0 (30000, 0, 0, 1000) = Some false /\
  in_window demo_sunrise demo_sunset 0 (70200, 0, 0, 1000) = Some true /\
  run_alone demo_scheduler [(30000, 0, 0, 1000); (70200, 0, 0, 1000)] 70000 =
  ([(0, 0, if py.Qltb (call_alt (30000, 0, 0, 1000)) 30000 then 5 else 0); (0, 0, - (5))],
   call_time (70200, 0, 0, 1000)).
Proof.
  assert (H1 : in_window demo_sunrise demo_sunset 0 (30000, 0, 0, 1000) = Some false)
    by reflexivity.
  assert (H2 : in_window demo_sunrise demo_sunset 0 (70200, 0, 0, 1000) = Some true)
    by reflexivity.
  split; [ exact H1 | ]. split; [ exact H2 | ].
  exact (window_entry_after_reset_descends demo_sunrise demo_sunset 5 30000 5 0 100
           (30000, 0, 0, 1000) (70200, 0, 0, 1000) 70000 H1 H2).
Defined.

End ModelsFacts.

(** ** Properties of [tawhiri/generate_wind_json.py] *)

Module ScriptFacts.

Import dataset generate_wind_json.
Local Open Scope Z_scope.

Lemma forecast_days_quot (fh : Z) : forecast_days fh = Z.quot fh 24.
Proof.
  unfold forecast_days.
  assert (E : (inject_Z fh / inject_Z 24 == fh # 24)%Q).
  { unfold Qeq, Qdiv, Qmult, Qinv, inject_Z. cbn [Qnum Qden]. lia. }
  rewrite (DatasetFacts.int_Qeq _ _ E). reflexivity.
Qed.

Lemma range_step8_In (n i : Z) :
  In i (py.range 0 (8 * n) 8) <-> exists j, 0 <= j < n /\ i = 8 * j.
Proof.
  unfold py.range.
  assert (Hlen : 0 <= n -> py.range_len 0 (8 * n) 8 = n).
  { intros Hn. unfold py.range_len. change (0 <? 8) with true.
    destruct (0 <? 8 * n) eqn:E; cbv [andb].
    - replace (8 * n - 1 - 0) with (7 + (n - 1) * 8) by lia.
      rewrite Z.div_add by lia. change (7 / 8) with 0. lia.
    - apply Z.ltb_ge in E. lia. }
  rewrite in_map_iff. split.
  - intros (k & <- & Hk). apply in_seq in Hk.
    destruct (Z.le_gt_cases 0 n) as [Hn | Hn].
    + rewrite Hlen in Hk by exact Hn. exists (Z.of_nat k). lia.
    + exfalso. unfold py.range_len in Hk. change (0 <? 8) with true in Hk.
      destruct (0 <? 8 * n) eqn:E; [ apply Z.ltb_lt in E; lia | ].
      cbv [andb] in Hk. cbn in Hk. lia.
  - intros (j & Hj & ->). exists (Z.to_nat j).
    split; [ rewrite Z2Nat.id by lia; lia | ].
    apply in_seq. rewrite Hlen by lia. lia.
Qed.

(** Every call the loops make asks for a whole day of the forecast that
    lies at least 24 hours before the horizon [forecast_hours()] reports,
    at one of the seven altitudes, and that hour is on the hour axis of
    the dataset; with less than 24 forecast hours there is no call. *)
Theorem script_calls_within_horizon (w : World) (fh time alt : Z) :
  layout_wf (w_cls w) ->
  fst (forecast_hours w) = inr fh ->
  (In (time, alt) (calls (forecast_days fh)) ->
     0 <= time /\ time mod 24 = 0 /\ time + 24 <= fh /\
     In time (ax_hour (axes (w_cls w))) /\ In alt altitudes) /\
  (fh < 24 -> calls (forecast_days fh) = []).
Proof.
  intros Hwf Hfh.
  destruct (DatasetFacts.hour_axis_members w time Hwf) as (fh' & Hfh' & Haxis).
  rewrite Hfh in Hfh'. injection Hfh' as <-.
  rewrite forecast_days_quot. split.
  - unfold calls. rewrite in_flat_map. intros (a & Ha & Hin).
    apply in_map_iff in Hin. destruct Hin as (i & [= <- <-] & Hi).
    apply range_step8_In in Hi. destruct Hi as (j & Hj & ->).
    assert (Hfh0 : 0 <= fh).
    { destruct (Z.le_gt_cases 0 fh) as [H | H]; [ exact H | exfalso ].
      assert (Z.quot fh 24 <= 0) by (apply Z.quot_le_upper_bound; lia).
      lia. }
    rewrite Z.quot_div_nonneg in Hj by lia.
    pose proof (Z.mul_div_le fh 24 ltac:(lia)) as Hle.
    assert (Hm24 : (8 * j * 3) mod 24 = 0).
    { replace (8 * j * 3) with (j * 24) by lia. apply Z.mod_mul. lia. }
    assert (Hm3 : (8 * j * 3) mod 3 = 0).
    { replace (8 * j * 3) with (8 * j * 3) by lia. apply Z.mod_mul. lia. }
    split; [ lia | ]. split; [ exact Hm24 | ]. split; [ lia | ].
    split; [ apply Haxis; split; [ lia | exact Hm3 ] | exact Ha ].
  - intros Hlt.
    assert (Hq : Z.quot fh 24 <= 0).
    { destruct (Z.le_gt_cases 0 fh) as [H | H].
      - rewrite Z.quot_small by lia. lia.
      - apply Z.quot_le_upper_bound; lia. }
    unfold calls.
    assert (Hr : py.range 0 (8 * Z.quot fh 24) 8 = []).
    { unfold py.range, py.range_len. change (0 <? 8) with true.
      destruct (0 <? 8 * Z.quot fh 24) eqn:E; [ apply Z.ltb_lt in E; lia | reflexivity ]. }
    rewrite Hr. reflexivity.
Qed.

(** The latitude handed to the interpolator lies strictly between the
    poles, and is the vertex latitude itself when that already does. *)
Theorem clamp_lat_bounds (lat : Q) :
  (- (90) < clamp_lat lat /\ clamp_lat lat < 90)%Q /\
  ((- (90) < lat /\ lat < 90)%Q -> clamp_lat lat = lat).
Proof.
  unfold clamp_lat.
  destruct (Qle_bool 90 lat) eqn:E1.
  - change (Qle_bool (8999 # 100) (- (90))) with false. cbv iota.
    split; [ split; reflexivity | ].
    intros [_ H]. apply Qle_bool_iff in E1. exfalso. exact (Qlt_not_le _ _ H E1).
  - assert (H1 : (lat < 90)%Q).
    { apply Qnot_le_lt. intros H. apply Qle_bool_iff in H. congruence. }
    destruct (Qle_bool lat (- (90))) eqn:E2.
    + split; [ split; reflexivity | ].
      intros [H _]. apply Qle_bool_iff in E2. exfalso. exact (Qlt_not_le _ _ H E2).
    + split; [ | reflexivity ]. split; [ | exact H1 ].
      apply Qnot_le_lt. intros H. apply Qle_bool_iff in H. congruence.
Qed.

Section ScriptRuns.

Variable get_wind : Z -> Q -> Q -> Z -> Q * Q.
Variable latLonToXYZ : Q -> Q -> Q * Q * Q.
Variable round2 : Q -> Q.

Lemma point_length (time alt : Z) (lat lon : Q) :
  List.length (point get_wind latLonToXYZ round2 time alt lat lon) = 3%nat.
Proof.
  unfold point.
  destruct (latLonToXYZ lat lon) as [[x y] z].
  destruct (get_wind time (clamp_lat lat) lon alt) as [u v].
  destruct (latLonToXYZ _ _) as [[x1 y1] z1]. reflexivity.
Qed.

Lemma zip_self_length {A : Type} (l : list A) :
  List.length (zip_self l) = Nat.div2 (List.length l).
Proof.
  assert (H : List.length (zip_self l) = Nat.div2 (List.length l) /\
              forall a, List.length (zip_self (a :: l)) = Nat.div2 (S (List.length l))).
  { induction l as [ | b l [IH1 IH2]].
    - split; reflexivity.
    - split; [ apply IH2 | ].
      intros a. cbn [zip_self List.length Nat.div2]. rewrite IH1. reflexivity. }
  exact (proj1 H).
Qed.

Lemma data_length (time alt : Z) (vertices : list Q) :
  List.length (fst (generateWindJson get_wind latLonToXYZ round2 time alt vertices)) =
  (3 * Nat.div2 (List.length vertices))%nat.
Proof.
  unfold generateWindJson. cbn [fst]. rewrite <- zip_self_length.
  induction (zip_self vertices) as [ | p ps IH]; [ reflexivity | ].
  cbn [flat_map]. rewrite length_app, point_length, IH. cbn [List.length]. lia.
Qed.

Lemma run_calls_exhausted (cs : list (Z * Z)) :
  run_calls get_wind latLonToXYZ round2 cs [] =
  map (fun c => (snd c, fst c, [])) cs.
Proof.
  induction cs as [ | [time alt] cs IH]; [ reflexivity | ].
  cbn [run_calls map generateWindJson zip_self flat_map fst snd]. rewrite IH. reflexivity.
Qed.

(** The vertex iterator is shared by all calls and the first call uses it
    up: the first file holds three numbers for each complete
    [(lat, lon)] pair of [geo6.json], and every later file holds an empty
    list. *)
Theorem script_only_first_file_has_data (time alt : Z) (cs : list (Z * Z))
    (vertices : list Q) :
  exists data,
    run_calls get_wind latLonToXYZ round2 ((time, alt) :: cs) vertices =
    (alt, time, data) :: map (fun c => (snd c, fst c, [])) cs /\
    List.length data = (3 * Nat.div2 (List.length vertices))%nat.
Proof.
  exists (fst (generateWindJson get_wind latLonToXYZ round2 time alt vertices)).
  split; [ | apply data_length ].
  cbn [run_calls]. unfold generateWindJson at 1. rewrite run_calls_exhausted.
  reflexivity.
Qed.

End ScriptRuns.

Lemma script_calls_within_horizon_witness :
  layout_wf (w_cls (boot demo_fs)) /\
  fst (forecast_hours (boot demo_fs)) = inr 192 /\
  (In (168, 5500) (calls (forecast_days 192)) ->
   0 <= 168 /\ 168 mod 24 = 0 /\ 168 + 24 <= 192 /\
   In 168 (ax_hour (axes (w_cls (boot demo_fs)))) /\ In 5500 altitudes).
Proof.
  assert (H1 : layout_wf (w_cls (boot demo_fs))) by (exists (192 + 3); reflexivity).
  assert (H2 : fst (forecast_hours (boot demo_fs)) = inr 192) by reflexivity.
  split; [ exact H1 | ]. split; [ exact H2 | ].
  exact (proj1 (script_calls_within_horizon (boot demo_fs) 192 168 5500 H1 H2)).
Defined.

End ScriptFacts.
